(** * ai-proxy: the Ollama health checker (src/ollama-health-checker.js)

    A shallow embedding of the class [OllamaHealthChecker]: the health probe
    [checkOllamaHealth], the wake call [wakeComputer], the blocking
    coordinator [ensureOllamaReady] and the non-blocking Express handler
    returned by [chatMiddleware].

    - JavaScript values are an inductive type with the language's truthiness,
      [||], [&&] and property access (which throws on [undefined]/[null]).
    - The two leaf methods are written in a small resumption monad whose only
      suspension is the axios request; [try]/[catch] is a combinator on it.
    - Node runs the handlers on one thread: a continuation runs without
      interruption from one [await] to the next.  The coordinator is therefore
      a transition system whose program counters are the [await]s of the
      source, and concurrent calls are interleavings of such atomic steps over
      the shared field [isWaking].
    - Console output is not modelled. *)

From Stdlib Require Import ZArith QArith String Ascii DecimalString List Bool Lia.
From stdpp Require Import base list.
Import ListNotations.
Set Warnings "-register-all".
Open Scope string_scope.
Open Scope Z_scope.

(** ** JavaScript values *)

Inductive value : Type :=
| VUndefined
| VNull
| VBool (b : bool)
| VNum (q : Q)
| VStr (s : string)
| VArr (elems : list value)
| VObj (fields : list (string * value)).

(** Thrown values: an [Error] with its message; axios errors also carry a
    [code] and, when the server answered, the response status. *)
Record js_error : Type := mkError {
  message : string;
  code : option string;
  response_status : option Z
}.

Definition Error (msg : string) : js_error := mkError msg None None.

Inductive result (A : Type) : Type :=
| Ok (a : A)
| Throw (e : js_error).
Arguments Ok {A} a.
Arguments Throw {A} e.

(** [ToBoolean]. *)
Definition truthy (v : value) : bool :=
  match v with
  | VUndefined | VNull => false
  | VBool b => b
  | VNum q => negb (Qeq_bool q 0)
  | VStr s => negb (String.eqb s "")
  | VArr _ | VObj _ => true
  end.

(** [a || b] on already evaluated operands. *)
Definition js_or (a b : value) : value := if truthy a then a else b.

Fixpoint assoc (name : string) (fields : list (string * value)) : option value :=
  match fields with
  | [] => None
  | (k, v) :: rest => if String.eqb k name then Some v else assoc name rest
  end.

(** [v.name] for the two names the middleware reads ([stream], [model]): an
    object yields the field or [undefined]; primitives and arrays have no such
    property; [undefined] and [null] throw a [TypeError]. *)
Definition get_property (v : value) (name : string) : result value :=
  match v with
  | VUndefined =>
      Throw (Error ("Cannot read properties of undefined (reading '" ++ name ++ "')"))
  | VNull =>
      Throw (Error ("Cannot read properties of null (reading '" ++ name ++ "')"))
  | VObj fields => Ok (default VUndefined (assoc name fields))
  | _ => Ok VUndefined
  end.

(** [v === true]. *)
Definition strict_eq_true (v : value) : bool :=
  match v with VBool true => true | _ => false end.

(** [hay.startsWith(needle)] and [hay.includes(needle)]. *)
Definition startsWith (hay needle : string) : bool := String.prefix needle hay.

Fixpoint includes (hay needle : string) : bool :=
  String.prefix needle hay ||
  match hay with
  | EmptyString => false
  | String _ rest => includes rest needle
  end.

(** ** axios *)

Record https_agent : Type := mkAgent {
  rejectUnauthorized : bool;
  keepAlive : bool
}.

Inductive http_method : Type := GET | POST.

(** The request configuration handed to axios.  [validateStatus], [maxRedirects]
    and [httpsAgent] are optional in axios and keep their defaults when absent. *)
Record axios_request : Type := mkRequest {
  method : http_method;
  url : string;
  data : option value;
  timeout : Z;
  headers : list (string * string);
  maxRedirects : option Z;
  validateStatus : option (Z -> bool);
  httpsAgent : option https_agent
}.

(** What the network did with one request: a final HTTP status, or a failure
    below HTTP (refused, reset, timed out, TLS) with its code and message. *)
Inductive network_outcome : Type :=
| NetStatus (status : Z)
| NetError (errcode errmsg : string).

(** axios' default [validateStatus]: [status >= 200 && status < 300]. *)
Definition default_validateStatus (status : Z) : bool :=
  (200 <=? status) && (status <? 300).

(** The [AxiosError] for a status that [validateStatus] refuses: its code is
    [ERR_BAD_REQUEST] for 4xx, [ERR_BAD_RESPONSE] for 5xx and absent
    otherwise. *)
Definition bad_status (s : Z) : js_error :=
  {| message := "Request failed with status code " ++ NilZero.string_of_int (Z.to_int s);
     code := if (400 <=? s) && (s <? 500) then Some "ERR_BAD_REQUEST"
             else if (500 <=? s) && (s <? 600) then Some "ERR_BAD_RESPONSE"
             else None;
     response_status := Some s |}.

(** How axios settles the promise: it resolves with the response when
    [validateStatus] accepts the status and rejects otherwise. *)
Definition axios_settle (req : axios_request) (o : network_outcome)
  : js_error + Z :=
  match o with
  | NetStatus s =>
      if default default_validateStatus (validateStatus req) s
      then inr s
      else inl (bad_status s)
  | NetError c m => inl (mkError m (Some c) None)
  end.

(** ** Asynchronous leaf methods

    [Await req k]: the method is suspended on [await axios(req)] and resumes
    with [k] on the settled promise. *)
Inductive async (A : Type) : Type :=
| Return (a : A)
| Raise (e : js_error)
| Await (req : axios_request) (k : js_error + Z -> async A).
Arguments Return {A} a.
Arguments Raise {A} e.
Arguments Await {A} req k.

Fixpoint bind {A B} (p : async A) (f : A -> async B) : async B :=
  match p with
  | Return a => f a
  | Raise e => Raise e
  | Await req k => Await req (fun r => bind (k r) f)
  end.

Fixpoint try_catch {A} (p : async A) (handler : js_error -> async A) : async A :=
  match p with
  | Return a => Return a
  | Raise e => handler e
  | Await req k => Await req (fun r => try_catch (k r) handler)
  end.

(** [await axios(req)]: the response status, or the rejection thrown. *)
Definition axios (req : axios_request) : async Z :=
  Await req (fun r => match r with inr s => Return s | inl e => Raise e end).

Notation "'let*' x ':=' p 'in' q" := (bind p (fun x => q))
  (at level 10, x name, p at level 100, q at level 200, only parsing).

(** Runs a method against a network; returns how its promise settles and the
    requests it issued, in order. *)
Fixpoint run {A} (p : async A) (net : axios_request -> network_outcome)
  : result A * list axios_request :=
  match p with
  | Return a => (Ok a, [])
  | Raise e => (Throw e, [])
  | Await req k =>
      let '(r, reqs) := run (k (axios_settle req (net req))) net in
      (r, req :: reqs)
  end.

(** ** The class *)

Record OllamaHealthChecker : Type := mkChecker {
  ollamaUrl : string;
  wakeUrl : string;
  wakeApiKey : string;
  wakeDelay : Z;          (* milliseconds *)
  isWaking : bool
}.

(** [constructor(ollamaUrl, wakeUrl, wakeApiKey, wakeDelay = 10)]. *)
Definition constructor (ollamaUrl wakeUrl wakeApiKey : string)
    (wakeDelay : option Z) : OllamaHealthChecker :=
  {| ollamaUrl := ollamaUrl;
     wakeUrl := wakeUrl;
     wakeApiKey := wakeApiKey;
     wakeDelay := default 10 wakeDelay * 1000;
     isWaking := false |}.

Definition set_isWaking (w : bool) (c : OllamaHealthChecker) : OllamaHealthChecker :=
  {| ollamaUrl := ollamaUrl c;
     wakeUrl := wakeUrl c;
     wakeApiKey := wakeApiKey c;
     wakeDelay := wakeDelay c;
     isWaking := w |}.

(** The configuration object of [axios.get] in [checkOllamaHealth]. *)
Definition healthRequest (c : OllamaHealthChecker) : axios_request :=
  {| method := GET;
     url := ollamaUrl c ++ "/api/tags";
     data := None;
     timeout := 10000;
     headers := [("Connection", "close");
                 ("User-Agent", "AI-Proxy-Health-Check/1.0");
                 ("Accept", "application/json")];
     maxRedirects := Some 3;
     validateStatus := Some (fun status => status =? 200);
     httpsAgent :=
       if startsWith (ollamaUrl c) "https://"
       then Some {| rejectUnauthorized := false; keepAlive := false |}
       else None |}.

Definition checkOllamaHealth (c : OllamaHealthChecker) : async bool :=
  try_catch
    (let* status := axios (healthRequest c) in
     Return (status =? 200))
    (fun error => Return false).

(** The configuration of [axios.post(this.wakeUrl, {}, ...)] in [wakeComputer]. *)
Definition wakeRequest (c : OllamaHealthChecker) : axios_request :=
  {| method := POST;
     url := wakeUrl c;
     data := Some (VObj []);
     timeout := 10000;
     headers := [("X-API-Key", wakeApiKey c);
                 ("Content-Type", "application/json")];
     maxRedirects := None;
     validateStatus := None;
     httpsAgent := None |}.

Definition wakeComputer (c : OllamaHealthChecker) : async bool :=
  try_catch
    (let* status := axios (wakeRequest c) in
     if status =? 200 then Return true else Return false)
    (fun error => Return false).

(** ** Node's TLS layer, as far as the probe's agent decides it

    [rejectUnauthorized] defaults to [true] in Node; a request made without an
    agent of its own validates the server certificate. *)
Definition verifies_certificate (req : axios_request) : bool :=
  match httpsAgent req with
  | Some agent => rejectUnauthorized agent
  | None => true
  end.

Inductive certificate : Type := TrustAnchored | SelfSigned.

Record backend : Type := mkBackend {
  presents : certificate;
  answers : network_outcome
}.

(** An https request that verifies certificates fails in the handshake on a
    certificate without a trust anchor; any other request gets the answer. *)
Definition reach (b : backend) (req : axios_request) : network_outcome :=
  match presents b with
  | SelfSigned =>
      if startsWith (url req) "https://" && verifies_certificate req
      then NetError "DEPTH_ZERO_SELF_SIGNED_CERT" "self-signed certificate"
      else answers b
  | TrustAnchored => answers b
  end.

(** ** Express: the handler returned by [chatMiddleware] *)

Record request : Type := mkReq {
  path : string;
  body : value
}.

(** What a handler does to its arguments, in order.  [res_write v] is
    [res.write(JSON.stringify(v) + '\n')]; [fire_wakeComputer] is the call
    [this.wakeComputer()] whose promise is not awaited. *)
Inductive action : Type :=
| next
| res_writeHead (status : Z) (hdrs : list (string * string))
| res_write (line : value)
| res_end
| res_status (status : Z)
| res_json (payload : value)
| fire_wakeComputer.

(** Synchronous handler code: the actions performed so far, and a value or
    the exception that stopped it. *)
Definition act (A : Type) : Type := list action * result A.

Definition act_ret {A} (a : A) : act A := ([], Ok a).

Definition act_bind {A B} (m : act A) (f : A -> act B) : act B :=
  match m with
  | (done, Ok a) => let '(more, r) := f a in ((done ++ more)%list, r)
  | (done, Throw e) => (done, Throw e)
  end.

Definition act_catch {A} (m : act A) (handler : js_error -> act A) : act A :=
  match m with
  | (done, Throw e) => let '(more, r) := handler e in ((done ++ more)%list, r)
  | settled => settled
  end.

Definition perform (a : action) : act unit := ([a], Ok tt).
Definition eval {A} (r : result A) : act A := ([], r).

Notation "'do' x '<-' m ';' k" := (act_bind m (fun x => k))
  (at level 10, x name, m at level 100, k at level 200, only parsing).
Notation "m ';;' k" := (act_bind m (fun _ => k))
  (at level 100, k at level 200, right associativity, only parsing).

Definition num (z : Z) : value := VNum (inject_Z z).

Definition wakingUpText : string :=
  "Cześć! 👋 Trwa uruchomienie serwera z Ollama. Wyślij ponowne zapytanie za około 20 sekund.".

(** [requestBody && requestBody.stream === true]. *)
Definition isStreaming (requestBody : value) : act value :=
  if truthy requestBody
  then do stream <- eval (get_property requestBody "stream");
       act_ret (VBool (strict_eq_true stream))
  else act_ret requestBody.

Definition ndjson_headers : list (string * string) :=
  [("Content-Type", "application/x-ndjson");
   ("Cache-Control", "no-cache");
   ("Connection", "keep-alive")].

(** Lines 186-220: the streaming branch. *)
Definition streaming_stub (now : string) (req : request) : act unit :=
  let requestBody := body req in
  perform (res_writeHead 200 ndjson_headers) ;;
  let isGenerateEndpoint := includes (path req) "/generate" in
  let isChatEndpoint := includes (path req) "/chat" in
  (if isGenerateEndpoint then
     do model <- eval (get_property requestBody "model");
     perform (res_write (VObj [("model", js_or model (VStr "unknown"));
                               ("created_at", VStr now);
                               ("response", VStr wakingUpText);
                               ("done", VBool true)]))
   else if isChatEndpoint then
     do model <- eval (get_property requestBody "model");
     perform (res_write (VObj [("model", js_or model (VStr "unknown"));
                               ("created_at", VStr now);
                               ("message", VObj [("role", VStr "assistant");
                                                 ("content", VStr wakingUpText)]);
                               ("done", VBool true)]))
   else act_ret tt) ;;
  perform res_end.

(** Lines 222-267: the plain JSON branch. *)
Definition json_stub (now : string) (req : request) : act unit :=
  let requestBody := body req in
  let isGenerateEndpoint := includes (path req) "/generate" in
  let isChatEndpoint := includes (path req) "/chat" in
  if isGenerateEndpoint then
    do model <- eval (get_property requestBody "model");
    perform (res_json (VObj [("model", js_or model (VStr "unknown"));
                             ("created_at", VStr now);
                             ("response", VStr wakingUpText);
                             ("done", VBool true);
                             ("context", VArr []);
                             ("total_duration", num 1000000);
                             ("load_duration", num 1000000);
                             ("prompt_eval_count", num 0);
                             ("prompt_eval_duration", num 0);
                             ("eval_count", num 1);
                             ("eval_duration", num 1000000)]))
  else if isChatEndpoint then
    do model <- eval (get_property requestBody "model");
    perform (res_json (VObj [("model", js_or model (VStr "unknown"));
                             ("created_at", VStr now);
                             ("message", VObj [("role", VStr "assistant");
                                               ("content", VStr wakingUpText)]);
                             ("done", VBool true);
                             ("total_duration", num 1000000);
                             ("load_duration", num 1000000);
                             ("prompt_eval_count", num 0);
                             ("prompt_eval_duration", num 0);
                             ("eval_count", num 1);
                             ("eval_duration", num 1000000)]))
  else
    perform (res_status 503) ;;
    perform (res_json (VObj [("message", VStr "Cześć! 👋 Trwa uruchomienie serwera z Ollama.");
                             ("instruction", VStr "Wyślij ponowne zapytanie za około 20 sekund.");
                             ("status", VStr "waking_up");
                             ("estimated_wait", VStr "20 sekund");
                             ("timestamp", VStr now)])).

(** Lines 270-279: the [catch] of the handler. *)
Definition error_reply (now : string) (error : js_error) : act unit :=
  perform (res_status 503) ;;
  perform (res_json (VObj [("message", VStr "Cześć! 👋 Wystąpił problem z uruchomieniem komputera.");
                           ("instruction", VStr "Spróbuj ponownie za chwilę.");
                           ("error", VStr (message error));
                           ("status", VStr "error");
                           ("timestamp", VStr now)])).

(** The handler from the point where [await this.checkOllamaHealth()]
    settles with [probe], at wall-clock reading [now]. *)
Definition chatMiddleware_resume (now : string) (req : request)
    (probe : result bool) : act unit :=
  act_catch
    (do isHealthy <- eval probe;
     if isHealthy then perform next
     else
       perform fire_wakeComputer ;;
       do streaming <- isStreaming (body req);
       if truthy streaming
       then streaming_stub now req
       else json_stub now req)
    (error_reply now).

(** The status line Express sends for a log of calls: 200 unless
    [res.status] or [res.writeHead] said otherwise. *)
Definition statusCode (log : list action) : Z :=
  fold_left (fun st a =>
               match a with
               | res_status s | res_writeHead s _ => s
               | _ => st
               end) log 200.

(** The NDJSON lines written to the response. *)
Definition written (log : list action) : list value :=
  flat_map (fun a => match a with res_write v => [v] | _ => [] end) log.

(** The body handed to [res.json], if any. *)
Definition json_sent (log : list action) : option value :=
  last (flat_map (fun a => match a with res_json v => [v] | _ => [] end) log).

Definition wake_fired (log : list action) : bool :=
  existsb (fun a => match a with fire_wakeComputer => true | _ => false end) log.

(** ** The coordinator as a transition system

    A call of [ensureOllamaReady] rests at one of its [await]s:
    - [E_poll]: line 115, the one-second timer inside [while (this.isWaking)];
    - [E_probe1]: line 120, the first [checkOllamaHealth];
    - [E_wake]: line 132, [wakeComputer];
    - [E_delay]: line 140, [delay];
    - [E_probe2]: line 143, the second [checkOllamaHealth];
    or has not started, has returned [true], or has thrown. *)
Inductive ensure_pc : Type :=
| E_entry
| E_poll
| E_probe1
| E_wake
| E_delay
| E_probe2
| E_returned
| E_threw (e : js_error).

(** A call of the handler of [chatMiddleware] rests at line 165 and then
    finishes with what it did to [res]/[next]; [detached] tells whether the
    promise of the [wakeComputer] it fired is still pending. *)
Inductive chat_pc : Type :=
| C_entry
| C_probe
| C_finished (outcome : act unit) (detached : bool).

Inductive task : Type :=
| Ensure (pc : ensure_pc)
| Chat (req : request) (pc : chat_pc).

(** What wakes a suspended call up. *)
Inductive event : Type :=
| Enter
| TimerFired
| ProbeSettled (o : network_outcome)
| WakeSettled (o : network_outcome).

Record label : Type := mkLabel {
  who : nat;
  what : event;
  clock : string
}.

(** The method calls and timers a continuation starts before it suspends. *)
Inductive effect : Type :=
| call_checkOllamaHealth
| call_wakeComputer
| setTimeout (ms : Z).

(** How the promise of a leaf method settles when the network answers [o]. *)
Definition settle {A} (p : async A) (o : network_outcome) : result A :=
  fst (run p (fun _ => o)).

Definition wakeFailed : js_error :=
  Error "Nie udało się uruchomić komputera".
Definition stillUnhealthy : js_error :=
  Error "Ollama nadal nie jest dostępna po uruchomieniu komputera".

(** One continuation of [ensureOllamaReady]: the new value of [this.isWaking],
    the next resting point and the effects started. *)
Definition ensure_step (c : OllamaHealthChecker) (pc : ensure_pc) (ev : event)
  : option (bool * ensure_pc * list effect) :=
  match pc, ev with
  | E_entry, Enter                       (* lines 112-120 *)
  | E_poll, TimerFired =>                (* lines 114-120 *)
      if isWaking c
      then Some (isWaking c, E_poll, [setTimeout 1000])
      else Some (isWaking c, E_probe1, [call_checkOllamaHealth])
  | E_probe1, ProbeSettled o =>          (* lines 120-132 *)
      match settle (checkOllamaHealth c) o with
      | Throw e => Some (isWaking c, E_threw e, [])
      | Ok true => Some (isWaking c, E_returned, [])
      | Ok false => Some (true, E_wake, [call_wakeComputer])
      end
  | E_wake, WakeSettled o =>             (* lines 132-140, 152-154 *)
      match settle (wakeComputer c) o with
      | Throw e => Some (false, E_threw e, [])
      | Ok false => Some (false, E_threw wakeFailed, [])
      | Ok true => Some (isWaking c, E_delay, [setTimeout (wakeDelay c)])
      end
  | E_delay, TimerFired =>               (* lines 140-143 *)
      Some (isWaking c, E_probe2, [call_checkOllamaHealth])
  | E_probe2, ProbeSettled o =>          (* lines 143-154 *)
      match settle (checkOllamaHealth c) o with
      | Throw e => Some (false, E_threw e, [])
      | Ok true => Some (false, E_returned, [])
      | Ok false => Some (false, E_threw stillUnhealthy, [])
      end
  | _, _ => None
  end.

(** One continuation of the chat handler; it never writes [this.isWaking]. *)
Definition chat_step (c : OllamaHealthChecker) (req : request) (pc : chat_pc)
    (ev : event) (now : string) : option (chat_pc * list effect) :=
  match pc, ev with
  | C_entry, Enter =>                    (* lines 163-165 *)
      Some (C_probe, [call_checkOllamaHealth])
  | C_probe, ProbeSettled o =>           (* lines 165-279 *)
      let outcome := chatMiddleware_resume now req (settle (checkOllamaHealth c) o) in
      if wake_fired (fst outcome)
      then Some (C_finished outcome true, [call_wakeComputer])
      else Some (C_finished outcome false, [])
  | C_finished outcome true, WakeSettled o =>   (* lines 177-179 *)
      Some (C_finished outcome false, [])
  | _, _ => None
  end.

Definition task_step (c : OllamaHealthChecker) (t : task) (ev : event)
    (now : string) : option (bool * task * list effect) :=
  match t with
  | Ensure pc =>
      match ensure_step c pc ev with
      | Some (w, pc', effs) => Some (w, Ensure pc', effs)
      | None => None
      end
  | Chat req pc =>
      match chat_step c req pc ev now with
      | Some (pc', effs) => Some (isWaking c, Chat req pc', effs)
      | None => None
      end
  end.

(** The process: the one checker object, the calls in flight, and the
    effects started so far, each tagged with the call that started it. *)
Record system : Type := mkSystem {
  checker : OllamaHealthChecker;
  tasks : list task;
  trace : list (nat * effect)
}.

Definition boot (c : OllamaHealthChecker) (ts : list task) : system :=
  {| checker := c; tasks := ts; trace := [] |}.

Definition step (s : system) (l : label) : option system :=
  match tasks s !! who l with
  | None => None
  | Some t =>
      match task_step (checker s) t (what l) (clock l) with
      | None => None
      | Some (w, t', effs) =>
          Some {| checker := set_isWaking w (checker s);
                  tasks := <[who l := t']> (tasks s);
                  trace := (trace s ++ map (pair (who l)) effs)%list |}
      end
  end.

Fixpoint steps (s : system) (schedule : list label) : option system :=
  match schedule with
  | [] => Some s
  | l :: rest =>
      match step s l with
      | Some s' => steps s' rest
      | None => None
      end
  end.

(** Wake calls started by call [i], and in total. *)
Definition is_wake (e : effect) : bool :=
  match e with call_wakeComputer => true | _ => false end.

Definition wake_calls_of (i : nat) (tr : list (nat * effect)) : nat :=
  length (List.filter (fun x => Nat.eqb (fst x) i && is_wake (snd x)) tr).

Definition wake_calls (tr : list (nat * effect)) : nat :=
  length (List.filter (fun x => is_wake (snd x)) tr).

Definition in_wake_sequence (pc : ensure_pc) : bool :=
  match pc with
  | E_wake | E_delay | E_probe2 => true
  | _ => false
  end.

Definition finished (pc : ensure_pc) : bool :=
  match pc with
  | E_returned | E_threw _ => true
  | _ => false
  end.

(** The probe classifies [o] as healthy. *)
Definition healthy (o : network_outcome) : bool :=
  match o with
  | NetStatus s => s =? 200
  | NetError _ _ => false
  end.

(** The backend is down throughout a schedule: no probe in it is answered
    with a healthy outcome. *)
Definition backend_down (schedule : list label) : Prop :=
  Forall (fun l => forall o, what l = ProbeSettled o -> healthy o = false) schedule.

(** A refused connection, the answer of a machine that is switched off. *)
Definition down : network_outcome :=
  NetError "ECONNREFUSED" "connect ECONNREFUSED 192.168.1.20:11434".

(** Call [i] is resumed by [ev]. *)
Definition at_ (i : nat) (ev : event) : label :=
  {| who := i; what := ev; clock := "2025-01-01T00:00:00.000Z" |}.

(** A checker as [index.js] builds it, with the default delay. *)
Definition demo : OllamaHealthChecker :=
  constructor "https://ollama.example" "https://wake.example/wake" "secret" None.

(** ** Vocabulary of the properties *)

(** A running backend behind a self-signed certificate. *)
Definition self_signed_up : backend :=
  {| presents := SelfSigned; answers := NetStatus 200 |}.

(** [v.name] as a value, for reading the payloads back. *)
Definition field (v : value) (name : string) : value :=
  match v with
  | VObj fields => default VUndefined (assoc name fields)
  | _ => VUndefined
  end.

(** The request has a body: [req.body] is neither [undefined] nor [null]. *)
Definition present (v : value) : bool :=
  match v with
  | VUndefined | VNull => false
  | _ => true
  end.

(** The path names one of the two endpoints the handler imitates. *)
Definition recognized (p : string) : bool :=
  includes p "/generate" || includes p "/chat".

(** The payload of lines 260-266. *)
Definition generic_waking_up (now : string) : value :=
  VObj [("message", VStr "Cześć! 👋 Trwa uruchomienie serwera z Ollama.");
        ("instruction", VStr "Wyślij ponowne zapytanie za około 20 sekund.");
        ("status", VStr "waking_up");
        ("estimated_wait", VStr "20 sekund");
        ("timestamp", VStr now)].

(** Requests used as examples. *)
Definition embeddings_plain : request :=
  mkReq "/api/embeddings" (VObj [("model", VStr "llama2")]).

Definition embeddings_stream : request :=
  mkReq "/api/embeddings" (VObj [("model", VStr "llama2"); ("stream", VBool true)]).

Definition chat_llama2 : request :=
  mkReq "/api/chat" (VObj [("model", VStr "llama2"); ("stream", VBool true)]).

(** Both calls enter before either probe settles. *)
Definition race : list label :=
  [at_ 0 Enter; at_ 1 Enter; at_ 0 (ProbeSettled down); at_ 1 (ProbeSettled down)].

(** Whenever [isWaking] is set, some call is inside its wake sequence. *)
Definition flag_owned (s : system) : Prop :=
  isWaking (checker s) = true ->
  exists j pcj, tasks s !! j = Some (Ensure pcj) /\ in_wake_sequence pcj = true.

(** The probe of call 1 fails, then the probe of call 0 succeeds. *)
Definition overtaken : list label :=
  [at_ 0 Enter; at_ 1 Enter; at_ 1 (ProbeSettled down);
   at_ 0 (ProbeSettled (NetStatus 200))].

(** A streaming request for model [llama2] on a path of kind Chat: the path
    contains [/chat] and not [/generate], which the handler tests first. *)
Definition asks_chat_llama2_stream (req : request) : Prop :=
  includes (path req) "/generate" = false
  /\ includes (path req) "/chat" = true
  /\ exists fields,
       body req = VObj fields
       /\ assoc "stream" fields = Some (VBool true)
       /\ assoc "model" fields = Some (VStr "llama2").

(** The line of lines 208-216 for model [llama2], and the handler's log
    around it. *)
Definition chat_chunk (now : string) : value :=
  VObj [("model", VStr "llama2");
        ("created_at", VStr now);
        ("message", VObj [("role", VStr "assistant");
                          ("content", VStr wakingUpText)]);
        ("done", VBool true)].

Definition chat_stub_log (now : string) : list action :=
  [fire_wakeComputer; res_writeHead 200 ndjson_headers;
   res_write (chat_chunk now); res_end].

(** What a chat call has done so far, by its resting point: no wake call
    before the probe settles, exactly one and the stub once it has. *)
Definition chat_ok (pc : chat_pc) (wakes : nat) : Prop :=
  match pc with
  | C_entry | C_probe => wakes = 0%nat
  | C_finished outcome _ =>
      wakes = 1%nat /\ exists now, outcome = (chat_stub_log now, Ok tt)
  end.

(** The invariant of a process that runs two such chat calls and nothing
    else. *)
Definition two_chats (c : OllamaHealthChecker) (r1 r2 : request) (s : system) : Prop :=
  checker s = c
  /\ exists p1 p2,
       tasks s = [Chat r1 p1; Chat r2 p2]
       /\ chat_ok p1 (wake_calls_of 0 (trace s))
       /\ chat_ok p2 (wake_calls_of 1 (trace s))
       /\ wake_calls (trace s)
          = (wake_calls_of 0 (trace s) + wake_calls_of 1 (trace s))%nat.

(** Both chat calls enter, then both probes settle. *)
Definition simultaneous (o1 o2 : network_outcome) (now1 now2 : string) : list label :=
  [mkLabel 0 Enter now1; mkLabel 1 Enter now2;
   mkLabel 0 (ProbeSettled o1) now1; mkLabel 1 (ProbeSettled o2) now2].

(** ** The blocking middleware, [middleware()] (lines 286-300) *)

(** How the promise of [ensureOllamaReady] has settled, if it has. *)
Definition ensure_outcome (pc : ensure_pc) : option (result bool) :=
  match pc with
  | E_returned => Some (Ok true)
  | E_threw e => Some (Throw e)
  | _ => None
  end.

(** The handler from the point where [await this.ensureOllamaReady()]
    settles. *)
Definition middleware_resume (outcome : result bool) : act unit :=
  act_catch
    (do ready <- eval outcome;
     perform next)
    (fun error =>
       perform (res_status 503) ;;
       perform (res_json (VObj [("error", VStr "Service Unavailable");
                                ("message", VStr "Nie można nawiązać połączenia z Ollama");
                                ("details", VStr (message error))]))).

(** ** The server, [index.js] *)

(** [process.env]: a variable is absent or holds a string. *)
Definition environment : Type := string -> option string.

Definition requiredEnvVars : list string :=
  ["OLLAMA_URL"; "WAKE_COMPUTER_URL"; "WAKE_API_KEY"].

(** [!process.env[envVar]]. *)
Definition env_falsy (env : environment) (envVar : string) : bool :=
  match env envVar with
  | None => true
  | Some s => negb (truthy (VStr s))
  end.

(** Lines 318-323: the loop stops the process with [process.exit(1)] at the
    first required variable that is falsy, after naming it on the console. *)
Inductive startup : Type :=
| exits (status : Z) (reported : string)
| continues.

Fixpoint check_required (env : environment) (vars : list string) : startup :=
  match vars with
  | [] => continues
  | envVar :: rest =>
      if env_falsy env envVar then exits 1 envVar else check_required env rest
  end.

(** Template literal [`${n}`] for an integral number. *)
Definition show_int (n : Z) : string := NilZero.string_of_int (Z.to_int n).

(** Lines 369-387, the route [GET /ollama-status], from the point where the
    probe settles: [startTime] and [endTime] are the two readings of
    [Date.now()], [now] is [new Date().toISOString()]. *)
Definition ollama_status (c : OllamaHealthChecker) (startTime endTime : Z)
    (now : string) (probe : result bool) : act unit :=
  act_catch
    (do isHealthy <- eval probe;
     let duration := endTime - startTime in
     perform (res_json (VObj [("status", VStr (if isHealthy then "healthy" else "unhealthy"));
                              ("ollamaUrl", VStr (ollamaUrl c));
                              ("timestamp", VStr now);
                              ("responseTime", VStr (show_int duration ++ "ms"))])))
    (fun error =>
       perform (res_status 500) ;;
       perform (res_json (VObj [("error", VStr "Internal Server Error");
                                ("message", VStr (message error))]))).

(** What a hook of the proxy does: it may start a health check it does not
    await, and it acts on the response. *)
Inductive hook_action : Type :=
| fire_checkOllamaHealth
| on_res (a : action).

(** [err.code] as a value, and inside a template literal. *)
Definition code_value (err : js_error) : value :=
  match code err with
  | Some c => VStr c
  | None => VUndefined
  end.

Definition code_text (err : js_error) : string :=
  match code err with
  | Some c => c
  | None => "undefined"
  end.

(** [v?.name]. *)
Definition optional_property (v : value) (name : string) : value :=
  match v with
  | VUndefined | VNull => VUndefined
  | VObj fields => default VUndefined (assoc name fields)
  | _ => VUndefined
  end.

(** Line 549. *)
Definition is_connection_error (err : js_error) : bool :=
  match code err with
  | Some c => String.eqb c "ECONNRESET" || String.eqb c "ECONNREFUSED"
              || String.eqb c "ETIMEDOUT"
  | None => false
  end.

Definition connectionProblemText (err : js_error) : string :=
  "Wystąpił problem z połączeniem do serwera Ollama (" ++ code_text err
  ++ "). Spróbuj ponownie za chwilę - serwer może się restartować.".

(** Lines 539-616: [proxyOptions.onError]. *)
Definition onError (c : OllamaHealthChecker) (now : string) (err : js_error)
    (req : request) : list hook_action :=
  if is_connection_error err then
    fire_checkOllamaHealth ::
    let isGenerateEndpoint := includes (path req) "/generate" in
    let isChatEndpoint := includes (path req) "/chat" in
    if isChatEndpoint then
      [on_res (res_json (VObj [("model", js_or (optional_property (body req) "model") (VStr "unknown"));
                               ("created_at", VStr now);
                               ("message", VObj [("role", VStr "assistant");
                                                 ("content", VStr (connectionProblemText err))]);
                               ("done", VBool true);
                               ("total_duration", num 1000000);
                               ("load_duration", num 1000000);
                               ("prompt_eval_count", num 0);
                               ("prompt_eval_duration", num 0);
                               ("eval_count", num 1);
                               ("eval_duration", num 1000000)]))]
    else if isGenerateEndpoint then
      [on_res (res_json (VObj [("model", js_or (optional_property (body req) "model") (VStr "unknown"));
                               ("created_at", VStr now);
                               ("response", VStr (connectionProblemText err));
                               ("done", VBool true);
                               ("context", VArr []);
                               ("total_duration", num 1000000);
                               ("load_duration", num 1000000);
                               ("prompt_eval_count", num 0);
                               ("prompt_eval_duration", num 0);
                               ("eval_count", num 1);
                               ("eval_duration", num 1000000)]))]
    else
      [on_res (res_status 502);
       on_res (res_json (VObj [("error", VStr "Bad Gateway");
                               ("message", VStr ("Błąd komunikacji z Ollama - " ++ code_text err));
                               ("details", VStr (message err));
                               ("code", code_value err);
                               ("target", VStr (ollamaUrl c));
                               ("timestamp", VStr now)]))]
  else
    [on_res (res_status 502);
     on_res (res_json (VObj [("error", VStr "Bad Gateway");
                             ("message", VStr "Błąd komunikacji z Ollama");
                             ("details", VStr (message err));
                             ("code", code_value err);
                             ("target", VStr (ollamaUrl c));
                             ("timestamp", VStr now)]))].

(** The calls a hook made on [res]. *)
Definition res_calls (acts : list hook_action) : list action :=
  flat_map (fun h => match h with on_res a => [a] | fire_checkOllamaHealth => [] end) acts.

(** Header stores.  A [ClientRequest] keeps its headers under lower-cased
    names, so [setHeader] replaces whatever was stored under any spelling of
    the name; [IncomingMessage.headers] is a plain object whose keys are
    compared as they are. *)
Definition header_store : Type := string -> option string.

Definition lower_ascii (a : ascii) : ascii :=
  let n := nat_of_ascii a in
  if ((65 <=? n) && (n <=? 90))%nat then ascii_of_nat (n + 32) else a.

Fixpoint toLowerCase (s : string) : string :=
  match s with
  | EmptyString => EmptyString
  | String a rest => String (lower_ascii a) (toLowerCase rest)
  end.

Definition setHeader (name value : string) (h : header_store) : header_store :=
  fun k => if String.eqb k (toLowerCase name) then Some value else h k.

Definition getHeader (name : string) (h : header_store) : option string :=
  h (toLowerCase name).

Definition assign (key value : string) (h : header_store) : header_store :=
  fun k => if String.eqb k key then Some value else h k.

(** Lines 617-642: [proxyOptions.onProxyReq], on the headers of the request
    about to be sent to the backend. *)
Definition onProxyReq (url : string) (proxyReq : header_store) : header_store :=
  let proxyReq := setHeader "Host" "ollama.lukasik.ovh" proxyReq in
  let proxyReq := setHeader "User-Agent" "AI-Proxy/1.0" proxyReq in
  let proxyReq := setHeader "Accept" "application/json" proxyReq in
  if includes url "/generate" || includes url "/chat" then
    let proxyReq := setHeader "Connection" "keep-alive" proxyReq in
    setHeader "Cache-Control" "no-cache" proxyReq
  else
    setHeader "Connection" "close" proxyReq.

(** Lines 643-660: [proxyOptions.onProxyRes], on [proxyRes.headers]. *)
Definition onProxyRes (url : string) (headers : header_store) : header_store :=
  let headers := assign "Access-Control-Allow-Origin" "*" headers in
  let headers := assign "Access-Control-Allow-Methods" "GET,POST,PUT,DELETE,OPTIONS" headers in
  let headers := assign "Access-Control-Allow-Headers" "Content-Type,Authorization,X-API-Key" headers in
  if includes url "/api/tags" || includes url "/api/show" then
    assign "Cache-Control" "no-cache, no-store, must-revalidate" headers
  else headers.

(** ** Vocabulary of the further properties *)

Definition is_probe (e : effect) : bool :=
  match e with call_checkOllamaHealth => true | _ => false end.

(** Probes started by call [i]. *)
Definition probe_calls_of (i : nat) (tr : list (nat * effect)) : nat :=
  length (List.filter (fun x => Nat.eqb (fst x) i && is_probe (snd x)) tr).

(** A call that has not started yet. *)
Definition fresh (t : task) : bool :=
  match t with
  | Ensure E_entry | Chat _ C_entry => true
  | _ => false
  end.

(** What a call at a given resting point has started so far: [p] probes
    and [w] wake calls. *)
Definition accounted (t : task) (p w : nat) : Prop :=
  match t with
  | Ensure E_entry | Ensure E_poll => p = 0%nat /\ w = 0%nat
  | Ensure E_probe1 => p = 1%nat /\ w = 0%nat
  | Ensure E_wake | Ensure E_delay => p = 1%nat /\ w = 1%nat
  | Ensure E_probe2 => p = 2%nat /\ w = 1%nat
  | Ensure E_returned => (p = 1%nat /\ w = 0%nat) \/ (p = 2%nat /\ w = 1%nat)
  | Ensure (E_threw e) =>
      (e = wakeFailed /\ p = 1%nat /\ w = 1%nat)
      \/ (e = stillUnhealthy /\ p = 2%nat /\ w = 1%nat)
  | Chat _ C_entry => p = 0%nat /\ w = 0%nat
  | Chat _ C_probe => p = 1%nat /\ w = 0%nat
  | Chat _ (C_finished outcome _) =>
      p = 1%nat /\ w = (if wake_fired (fst outcome) then 1 else 0)%nat
  end.

Definition all_accounted (s : system) : Prop :=
  forall i t, tasks s !! i = Some t ->
              accounted t (probe_calls_of i (trace s)) (wake_calls_of i (trace s)).

(** Whether a call may still start a wake call. *)
Definition may_wake (t : task) : nat :=
  match t with
  | Ensure E_entry | Ensure E_poll | Ensure E_probe1 => 1
  | Chat _ C_entry | Chat _ C_probe => 1
  | _ => 0
  end.

(** Wake calls made so far and wake calls still possible fit in the number
    of calls. *)
Definition wake_budget (s : system) : Prop :=
  (wake_calls (trace s) + sum_list_with may_wake (tasks s) <= length (tasks s))%nat.

(** The continuations a call of [ensureOllamaReady] has left, at most, once
    it is past the polling loop. *)
Definition remaining (pc : ensure_pc) : nat :=
  match pc with
  | E_entry | E_poll => 5
  | E_probe1 => 4
  | E_wake => 3
  | E_delay => 2
  | E_probe2 => 1
  | E_returned | E_threw _ => 0
  end.

Definition past_polling (pc : ensure_pc) : bool :=
  match pc with
  | E_entry | E_poll => false
  | _ => true
  end.

(** How often a schedule resumes call [i]. *)
Definition resumptions (i : nat) (schedule : list label) : nat :=
  length (List.filter (fun l => Nat.eqb (who l) i) schedule).

(** An action that completes the handling of a request. *)
Definition terminal (a : action) : bool :=
  match a with
  | next | res_json _ | res_end => true
  | _ => false
  end.

(** The log ends with a terminal action and has none before it. *)
Definition completes_once (log : list action) : bool :=
  match rev log with
  | a :: before => terminal a && forallb (fun x => negb (terminal x)) before
  | [] => false
  end.

(** The one payload a log carries, as an NDJSON line or as a JSON body. *)
Definition payload_of (log : list action) : option value :=
  match written log, json_sent log with
  | [line], None => Some line
  | [], Some sent => Some sent
  | _, _ => None
  end.

(** [s] occurs in [hay]. *)
Definition occurs_in (s hay : string) : Prop :=
  exists before after, hay = before ++ s ++ after.

(** * Properties *)

(** ** The leaf methods *)

Lemma healthy_200 (o : network_outcome) : healthy o = true <-> o = NetStatus 200.
Proof.
  destruct o as [s | c m]; simpl.
  - rewrite Z.eqb_eq. split; [intros -> | intros [= ->]]; reflexivity.
  - split; discriminate.
Qed.

Lemma checkOllamaHealth_run (c : OllamaHealthChecker) net :
  run (checkOllamaHealth c) net
  = (Ok (healthy (net (healthRequest c))), [healthRequest c]).
Proof.
  unfold checkOllamaHealth, axios; simpl.
  destruct (net (healthRequest c)) as [s | code msg]; simpl; [| reflexivity].
  destruct (s =? 200) eqn:E; simpl; rewrite ?E; reflexivity.
Qed.

Lemma wakeComputer_run (c : OllamaHealthChecker) net :
  run (wakeComputer c) net
  = (Ok (healthy (net (wakeRequest c))), [wakeRequest c]).
Proof.
  unfold wakeComputer, axios; simpl.
  destruct (net (wakeRequest c)) as [s | code msg]; simpl; [| reflexivity].
  unfold default_validateStatus.
  destruct (s =? 200) eqn:E.
  - apply Z.eqb_eq in E; subst s; reflexivity.
  - destruct ((200 <=? s) && (s <? 300)); simpl; rewrite ?E; reflexivity.
Qed.

Lemma settle_checkOllamaHealth c o :
  settle (checkOllamaHealth c) o = Ok (healthy o).
Proof. unfold settle. rewrite checkOllamaHealth_run. reflexivity. Qed.

Lemma settle_wakeComputer c o :
  settle (wakeComputer c) o = Ok (healthy o).
Proof. unfold settle. rewrite wakeComputer_run. reflexivity. Qed.

(** C4: whatever the network does, [checkOllamaHealth] issues exactly one
    request, a GET of [<ollamaUrl>/api/tags], and reports healthy exactly
    when that request ended in status 200; any other status and any
    transport, TLS or timeout failure is reported unhealthy, and no second
    request is made. *)
Theorem checkOllamaHealth_healthy_iff_200 (c : OllamaHealthChecker)
    (net : axios_request -> network_outcome) :
  exists b : bool,
    run (checkOllamaHealth c) net = (Ok b, [healthRequest c])
    /\ method (healthRequest c) = GET
    /\ url (healthRequest c) = ollamaUrl c ++ "/api/tags"
    /\ (b = true <-> net (healthRequest c) = NetStatus 200).
Proof.
  exists (healthy (net (healthRequest c))).
  split; [apply checkOllamaHealth_run |].
  repeat split; try apply healthy_200.
Qed.

(** C9: the promises of [checkOllamaHealth] and [wakeComputer] always
    fulfil with a boolean and never reject, for every checker and every
    behaviour of the network; the boolean is [false] unless the request ended
    in status 200. *)
Theorem leaf_methods_never_reject (c : OllamaHealthChecker)
    (net : axios_request -> network_outcome) :
  (exists b : bool,
     fst (run (checkOllamaHealth c) net) = Ok b
     /\ (b = true <-> net (healthRequest c) = NetStatus 200))
  /\ (exists b : bool,
        fst (run (wakeComputer c) net) = Ok b
        /\ (b = true <-> net (wakeRequest c) = NetStatus 200)).
Proof.
  split.
  - exists (healthy (net (healthRequest c))).
    rewrite checkOllamaHealth_run. split; [reflexivity | apply healthy_200].
  - exists (healthy (net (wakeRequest c))).
    rewrite wakeComputer_run. split; [reflexivity | apply healthy_200].
Qed.

(** ** Certificate validation *)

(** C2, refuted as stated: a checker built by the constructor for an https
    backend, with nothing else configured, has certificate validation
    switched off, and its probe accepts a self-signed backend. *)
Lemma default_checker_accepts_self_signed :
  let c := constructor "https://ollama.example" "https://wake.example/wake" "secret" None in
  verifies_certificate (healthRequest c) = false
  /\ fst (run (checkOllamaHealth c) (reach self_signed_up)) = Ok true.
Proof. split; reflexivity. Qed.

Lemma healthRequest_agent (c : OllamaHealthChecker) :
  httpsAgent (healthRequest c)
  = if startsWith (ollamaUrl c) "https://"
    then Some {| rejectUnauthorized := false; keepAlive := false |}
    else None.
Proof. reflexivity. Qed.

Lemma verifies_certificate_health (c : OllamaHealthChecker) :
  verifies_certificate (healthRequest c)
  = negb (startsWith (ollamaUrl c) "https://").
Proof.
  unfold verifies_certificate. rewrite healthRequest_agent.
  destruct (startsWith (ollamaUrl c) "https://"); reflexivity.
Qed.

Lemma reach_unverified (b : backend) (req : axios_request) :
  verifies_certificate req = false -> reach b req = answers b.
Proof.
  intros H. unfold reach. rewrite H, andb_false_r.
  destruct (presents b); reflexivity.
Qed.

(** C2, as the code has it: the probe validates the certificate exactly when
    [ollamaUrl] does not start with [https://]; the agent that switches
    validation off is installed for every https backend, so such a backend is
    judged by its answer alone even when its certificate is self-signed. *)
Theorem certificate_validation_off_for_https (c : OllamaHealthChecker) (b : backend) :
  verifies_certificate (healthRequest c) = negb (startsWith (ollamaUrl c) "https://")
  /\ (startsWith (ollamaUrl c) "https://" = true ->
      httpsAgent (healthRequest c)
        = Some {| rejectUnauthorized := false; keepAlive := false |}
      /\ fst (run (checkOllamaHealth c) (reach b)) = Ok (healthy (answers b)))
  /\ (startsWith (ollamaUrl c) "https://" = false ->
      httpsAgent (healthRequest c) = None).
Proof.
  split; [apply verifies_certificate_health |].
  split; intros E.
  - split; [rewrite healthRequest_agent, E; reflexivity |].
    rewrite checkOllamaHealth_run, reach_unverified; [reflexivity |].
    rewrite verifies_certificate_health, E; reflexivity.
  - rewrite healthRequest_agent, E; reflexivity.
Qed.

Lemma certificate_validation_off_for_https_witness :
  startsWith (ollamaUrl demo) "https://" = true
  /\ fst (run (checkOllamaHealth demo) (reach self_signed_up)) = Ok true.
Proof.
  split; [reflexivity |].
  exact (proj2 (proj1 (proj2 (certificate_validation_off_for_https demo self_signed_up))
                 eq_refl)).
Defined.

(** ** The chat handler *)

Lemma isStreaming_spec (requestBody : value) :
  exists v : value,
    isStreaming requestBody = ([], Ok v)
    /\ (truthy v = true <->
        exists fields, requestBody = VObj fields
                       /\ assoc "stream" fields = Some (VBool true)).
Proof.
  unfold isStreaming.
  destruct requestBody as [ | | b | q | s | elems | fields]; simpl.
  1-2: eexists; split; [reflexivity |]; simpl;
       split; [discriminate | intros (? & [=] & _)].
  - destruct b; eexists; (split; [reflexivity |]); simpl;
      (split; [discriminate | intros (? & [=] & _)]).
  - destruct (Qeq_bool q 0) eqn:E; simpl; eexists; (split; [reflexivity |]);
      simpl; rewrite ?E; simpl;
      (split; [discriminate | intros (? & [=] & _)]).
  - destruct (String.eqb s "") eqn:E; simpl; eexists; (split; [reflexivity |]);
      simpl; rewrite ?E; simpl;
      (split; [discriminate | intros (? & [=] & _)]).
  - eexists; split; [reflexivity |]; simpl.
    split; [discriminate | intros (? & [=] & _)].
  - eexists; split; [reflexivity |]; simpl.
    destruct (assoc "stream" fields) as [[ | | [] | | | | ] | ] eqn:E; simpl;
      (split; [try discriminate | intros (f & [= <-] & Hf); try congruence]);
      try reflexivity.
    intros _. exists fields. split; [reflexivity | exact E].
Qed.

(** C10: the handler takes the streaming branch exactly when the request
    body is an object whose [stream] field is the boolean [true]; with any
    other body - [stream] a string, no [stream] field, no body at all - the
    value of [isStreaming] is falsy and the plain JSON branch answers. *)
Theorem streaming_requires_boolean_true (now : string) (req : request) :
  exists v : value,
    isStreaming (body req) = ([], Ok v)
    /\ (truthy v = true <->
        exists fields, body req = VObj fields
                       /\ assoc "stream" fields = Some (VBool true))
    /\ chatMiddleware_resume now req (Ok false)
       = act_catch
           (act_bind (perform fire_wakeComputer)
              (fun _ => if truthy v
                        then streaming_stub now req
                        else json_stub now req))
           (error_reply now).
Proof.
  destruct (isStreaming_spec (body req)) as (v & Hv & Hiff).
  exists v. split; [exact Hv |]. split; [exact Hiff |].
  unfold chatMiddleware_resume. simpl. rewrite Hv. simpl.
  destruct (if truthy v then streaming_stub now req else json_stub now req)
    as [log r] eqn:E.
  reflexivity.
Qed.

Lemma get_property_present (v : value) (name : string) :
  present v = true -> get_property v name = Ok (field v name).
Proof. destruct v; simpl; intros H; try discriminate; reflexivity. Qed.

(** Without a body the value of [isStreaming] is [undefined] and the JSON
    branch is taken; on a [/generate] or [/chat] path that branch throws on
    [requestBody.model] and the [catch] answers 503. *)
Lemma absent_body_reaches_catch (now : string) :
  chatMiddleware_resume now (mkReq "/api/generate" VUndefined) (Ok false)
  = act_bind (perform fire_wakeComputer)
      (fun _ => error_reply now
                  (Error "Cannot read properties of undefined (reading 'model')")).
Proof. reflexivity. Qed.

(** C7, evaluated where it fails: a streaming request to a path that is
    neither [/generate] nor [/chat] gets status 200, the NDJSON headers and
    an empty body - no envelope of any kind is written - whereas the same
    request without [stream] gets the generic 503 [waking_up] envelope. *)
Theorem streaming_other_endpoint_gets_empty_body (now : string) :
  let log := fst (chatMiddleware_resume now embeddings_stream (Ok false)) in
  recognized (path embeddings_stream) = false
  /\ log = [fire_wakeComputer; res_writeHead 200 ndjson_headers; res_end]
  /\ written log = []
  /\ json_sent log = None
  /\ statusCode log = 200
  /\ fst (chatMiddleware_resume now embeddings_plain (Ok false))
     = [fire_wakeComputer; res_status 503; res_json (generic_waking_up now)].
Proof. repeat split. Qed.

(** C6, refuted as stated: with the backend down, a non-streaming request
    to a path other than [/generate] and [/chat] is answered with status
    503. *)
Lemma other_endpoint_answered_503_while_down :
  exists log,
    task_step demo (Chat embeddings_plain C_probe) (ProbeSettled down)
              "2025-01-01T00:00:00.000Z"
    = Some (false, Chat embeddings_plain (C_finished (log, Ok tt) true),
            [call_wakeComputer])
    /\ statusCode log = 503.
Proof. eexists. split; reflexivity. Qed.

(** C6, as the code has it.  For a request with a body, handled while the
    backend is down: the continuation that sees the failed probe starts
    [wakeComputer] and finishes the response at once, leaving [isWaking]
    alone; whatever the wake call later settles with changes neither the
    response nor the flag and raises nothing.  On a [/generate] or [/chat]
    path the response has status 200 and carries the stub, as one NDJSON line
    when [stream] is [true] and as one JSON body otherwise; on any other path
    a non-streaming request gets the generic 503 [waking_up] envelope. *)
Theorem chat_handler_while_down (c : OllamaHealthChecker) (req : request)
    (o o' : network_outcome) (now now' : string) :
  healthy o = false ->
  present (body req) = true ->
  exists (log : list action) (streaming : value),
    isStreaming (body req) = ([], Ok streaming)
    /\ task_step c (Chat req C_probe) (ProbeSettled o) now
       = Some (isWaking c, Chat req (C_finished (log, Ok tt) true),
               [call_wakeComputer])
    /\ task_step c (Chat req (C_finished (log, Ok tt) true)) (WakeSettled o') now'
       = Some (isWaking c, Chat req (C_finished (log, Ok tt) false), [])
    /\ (recognized (path req) = true ->
        statusCode log = 200
        /\ exists payload,
             log = (if truthy streaming
                    then [fire_wakeComputer; res_writeHead 200 ndjson_headers;
                          res_write payload; res_end]
                    else [fire_wakeComputer; res_json payload])
             /\ field payload "done" = VBool true
             /\ (field payload "response" = VStr wakingUpText
                 \/ field (field payload "message") "content" = VStr wakingUpText))
    /\ (recognized (path req) = false -> truthy streaming = false ->
        log = [fire_wakeComputer; res_status 503; res_json (generic_waking_up now)]
        /\ statusCode log = 503).
Proof.
  intros Hdown Hbody.
  destruct (isStreaming_spec (body req)) as (v & Hv & _).
  unfold task_step, chat_step, recognized.
  rewrite settle_checkOllamaHealth, Hdown.
  unfold chatMiddleware_resume, streaming_stub, json_stub.
  rewrite Hv, (get_property_present _ "model" Hbody).
  destruct (includes (path req) "/generate"), (includes (path req) "/chat");
    simpl; destruct (truthy v) eqn:T; simpl;
    eexists; exists v; rewrite T;
    (split; [reflexivity |]); (split; [reflexivity |]);
    (split; [reflexivity |]);
    (split; [ intros Hrec; try discriminate Hrec
            | intros Hrec Hs; try discriminate Hrec; try discriminate Hs ]);
    try (split; reflexivity);
    (split; [reflexivity |]);
    eexists; (split; [reflexivity |]); (split; [reflexivity |]);
    ((left; reflexivity) || (right; reflexivity)).
Qed.

Lemma chat_handler_while_down_witness :
  healthy down = false
  /\ present (body chat_llama2) = true
  /\ exists log streaming,
       isStreaming (body chat_llama2) = ([], Ok streaming)
       /\ task_step demo (Chat chat_llama2 C_probe) (ProbeSettled down) "t"
          = Some (false, Chat chat_llama2 (C_finished (log, Ok tt) true),
                  [call_wakeComputer]).
Proof.
  split; [reflexivity |]. split; [reflexivity |].
  destruct (chat_handler_while_down demo chat_llama2 down (NetStatus 401) "t" "t"
              eq_refl eq_refl) as (log & streaming & H1 & H2 & _).
  exists log, streaming. split; [exact H1 | exact H2].
Defined.

(** ** The blocking coordinator *)

Lemma set_isWaking_same (c : OllamaHealthChecker) :
  set_isWaking (isWaking c) c = c.
Proof. destruct c; reflexivity. Qed.

(** The steps of [ensureOllamaReady], with the leaf methods resolved. *)
Lemma ensure_step_probe1 c o :
  ensure_step c E_probe1 (ProbeSettled o)
  = if healthy o
    then Some (isWaking c, E_returned, [])
    else Some (true, E_wake, [call_wakeComputer]).
Proof. simpl. rewrite settle_checkOllamaHealth. destruct (healthy o); reflexivity. Qed.

Lemma ensure_step_wake c o :
  ensure_step c E_wake (WakeSettled o)
  = if healthy o
    then Some (isWaking c, E_delay, [setTimeout (wakeDelay c)])
    else Some (false, E_threw wakeFailed, []).
Proof. simpl. rewrite settle_wakeComputer. destruct (healthy o); reflexivity. Qed.

Lemma ensure_step_probe2 c o :
  ensure_step c E_probe2 (ProbeSettled o)
  = if healthy o
    then Some (false, E_returned, [])
    else Some (false, E_threw stillUnhealthy, []).
Proof. simpl. rewrite settle_checkOllamaHealth. destruct (healthy o); reflexivity. Qed.

(** A caller that waited in the polling loop leaves it only into the first
    probe: it never returns on the flag alone. *)
Lemma poll_leaves_into_probe c ev w pc' effs :
  ensure_step c E_poll ev = Some (w, pc', effs) ->
  (isWaking c = true /\ pc' = E_poll /\ effs = [setTimeout 1000])
  \/ (isWaking c = false /\ pc' = E_probe1 /\ effs = [call_checkOllamaHealth]).
Proof.
  destruct ev; simpl; try discriminate.
  destruct (isWaking c); intros [= <- <- <-]; auto.
Qed.

Lemma backend_down_cons l schedule :
  (forall o, what l = ProbeSettled o -> healthy o = false) ->
  backend_down schedule -> backend_down (l :: schedule).
Proof. intros; constructor; assumption. Qed.

(** C1, evaluated where it fails: two calls of [ensureOllamaReady] enter
    while the backend is down; each reads [isWaking = false] and suspends on
    its probe before either has set the flag; when the probes fail, each sets
    the flag and calls [wakeComputer].  Two wake calls are made. *)
Theorem two_callers_both_wake :
  exists s0 s,
    backend_down race
    /\ steps (boot demo [Ensure E_entry; Ensure E_entry]) [at_ 0 Enter; at_ 1 Enter]
       = Some s0
    /\ isWaking (checker s0) = false
    /\ tasks s0 = [Ensure E_probe1; Ensure E_probe1]
    /\ steps (boot demo [Ensure E_entry; Ensure E_entry]) race = Some s
    /\ tasks s = [Ensure E_wake; Ensure E_wake]
    /\ wake_calls_of 0 (trace s) = 1%nat
    /\ wake_calls_of 1 (trace s) = 1%nat
    /\ wake_calls (trace s) = 2%nat.
Proof.
  do 2 eexists. split.
  - repeat apply backend_down_cons; try (intros o [=]; subst; reflexivity).
    constructor.
  - repeat split; reflexivity.
Qed.

(** A continuation of [ensureOllamaReady], as a step of the process. *)
Lemma step_ensure (s : system) (i : nat) (now : string) (pc pc' : ensure_pc)
    (ev : event) (w : bool) (effs : list effect) :
  tasks s !! i = Some (Ensure pc) ->
  ensure_step (checker s) pc ev = Some (w, pc', effs) ->
  step s (mkLabel i ev now)
  = Some {| checker := set_isWaking w (checker s);
            tasks := <[i := Ensure pc']> (tasks s);
            trace := (trace s ++ map (pair i) effs)%list |}.
Proof.
  intros Hi Hstep. unfold step. cbn [who what clock]. rewrite Hi.
  cbn [task_step]. rewrite Hstep. reflexivity.
Qed.

(** C5: the wake sequence of [ensureOllamaReady] in the running process,
    continuation by continuation, for any state of the checker and any other
    calls in flight.  A failed first probe sets [isWaking] and calls
    [wakeComputer].  If that call fails, [isWaking] is [false] afterwards and
    the call has thrown the error [Nie udało się uruchomić komputera], having
    started neither the delay nor a probe.  If it succeeds, the call sleeps
    [wakeDelay] and then probes again; after the second probe [isWaking] is
    [false], and the call has returned if the probe was healthy and has
    thrown the error [Ollama nadal nie jest dostępna po uruchomieniu
    komputera] if not. *)
Theorem ensureOllamaReady_wake_outcomes (s : system) (i : nat) (now : string)
    (o1 ow o2 : network_outcome) :
  (tasks s !! i = Some (Ensure E_probe1) -> healthy o1 = false ->
   exists s',
     step s (mkLabel i (ProbeSettled o1) now) = Some s'
     /\ isWaking (checker s') = true
     /\ tasks s' = <[i := Ensure E_wake]> (tasks s)
     /\ trace s' = (trace s ++ [(i, call_wakeComputer)])%list)
  /\ (tasks s !! i = Some (Ensure E_wake) -> healthy ow = false ->
      exists s',
        step s (mkLabel i (WakeSettled ow) now) = Some s'
        /\ isWaking (checker s') = false
        /\ tasks s'
           = <[i := Ensure (E_threw (Error "Nie udało się uruchomić komputera"))]>
               (tasks s)
        /\ trace s' = trace s)
  /\ (tasks s !! i = Some (Ensure E_wake) -> healthy ow = true ->
      exists s',
        step s (mkLabel i (WakeSettled ow) now) = Some s'
        /\ isWaking (checker s') = isWaking (checker s)
        /\ tasks s' = <[i := Ensure E_delay]> (tasks s)
        /\ trace s' = (trace s ++ [(i, setTimeout (wakeDelay (checker s)))])%list)
  /\ (tasks s !! i = Some (Ensure E_delay) ->
      exists s',
        step s (mkLabel i TimerFired now) = Some s'
        /\ isWaking (checker s') = isWaking (checker s)
        /\ tasks s' = <[i := Ensure E_probe2]> (tasks s)
        /\ trace s' = (trace s ++ [(i, call_checkOllamaHealth)])%list)
  /\ (tasks s !! i = Some (Ensure E_probe2) -> healthy o2 = true ->
      exists s',
        step s (mkLabel i (ProbeSettled o2) now) = Some s'
        /\ isWaking (checker s') = false
        /\ tasks s' = <[i := Ensure E_returned]> (tasks s)
        /\ trace s' = trace s)
  /\ (tasks s !! i = Some (Ensure E_probe2) -> healthy o2 = false ->
      exists s',
        step s (mkLabel i (ProbeSettled o2) now) = Some s'
        /\ isWaking (checker s') = false
        /\ tasks s'
           = <[i := Ensure (E_threw (Error "Ollama nadal nie jest dostępna po uruchomieniu komputera"))]>
               (tasks s)
        /\ trace s' = trace s).
Proof.
  repeat split.
  - intros Hi H. eexists. split.
    + eapply step_ensure; [exact Hi |]. rewrite ensure_step_probe1, H. reflexivity.
    + repeat split.
  - intros Hi H. eexists. split.
    + eapply step_ensure; [exact Hi |]. rewrite ensure_step_wake, H. reflexivity.
    + repeat split. apply app_nil_r.
  - intros Hi H. eexists. split.
    + eapply step_ensure; [exact Hi |]. rewrite ensure_step_wake, H. reflexivity.
    + repeat split.
  - intros Hi. eexists. split.
    + eapply step_ensure; [exact Hi |]. reflexivity.
    + repeat split.
  - intros Hi H. eexists. split.
    + eapply step_ensure; [exact Hi |]. rewrite ensure_step_probe2, H. reflexivity.
    + repeat split. apply app_nil_r.
  - intros Hi H. eexists. split.
    + eapply step_ensure; [exact Hi |]. rewrite ensure_step_probe2, H. reflexivity.
    + repeat split. apply app_nil_r.
Qed.

(** One call alone, on a checker at rest: the three ways through the wake
    sequence, with everything the call started. *)
Lemma lone_call_runs (c : OllamaHealthChecker) (o1 ow o2 : network_outcome) :
  isWaking c = false -> healthy o1 = false ->
  let probe_then_wake := [at_ 0 Enter; at_ 0 (ProbeSettled o1); at_ 0 (WakeSettled ow)] in
  let started := [(0%nat, call_checkOllamaHealth); (0%nat, call_wakeComputer)] in
  let completed := (started ++ [(0%nat, setTimeout (wakeDelay c));
                                (0%nat, call_checkOllamaHealth)])%list in
  (healthy ow = false ->
   steps (boot c [Ensure E_entry]) probe_then_wake
   = Some (mkSystem c [Ensure (E_threw wakeFailed)] started))
  /\ (healthy ow = true -> healthy o2 = true ->
      steps (boot c [Ensure E_entry])
            (probe_then_wake ++ [at_ 0 TimerFired; at_ 0 (ProbeSettled o2)])
      = Some (mkSystem c [Ensure E_returned] completed))
  /\ (healthy ow = true -> healthy o2 = false ->
      steps (boot c [Ensure E_entry])
            (probe_then_wake ++ [at_ 0 TimerFired; at_ 0 (ProbeSettled o2)])
      = Some (mkSystem c [Ensure (E_threw stillUnhealthy)] completed)).
Proof.
  intros Hc H1. destruct c as [u wu k d w]; simpl in Hc; subst w.
  repeat split; intros; unfold steps, step, task_step; simpl tasks; simpl lookup;
    cbn [what who at_ checker isWaking set_isWaking boot];
    repeat (first [ rewrite settle_checkOllamaHealth | rewrite settle_wakeComputer
                  | match goal with H : healthy _ = _ |- _ => rewrite H end
                  | progress simpl ]);
    reflexivity.
Qed.

Lemma ensureOllamaReady_wake_outcomes_witness :
  let s := mkSystem (set_isWaking true demo) [Ensure E_wake]
             [(0%nat, call_checkOllamaHealth); (0%nat, call_wakeComputer)] in
  tasks s !! 0%nat = Some (Ensure E_wake)
  /\ healthy down = false
  /\ exists s',
       step s (mkLabel 0 (WakeSettled down) "t") = Some s'
       /\ isWaking (checker s') = false.
Proof.
  intros s. split; [reflexivity |]. split; [reflexivity |].
  destruct (proj1 (proj2 (ensureOllamaReady_wake_outcomes s 0%nat "t" down down down))
              eq_refl eq_refl) as (s' & Hs & Hw & _).
  exists s'. split; assumption.
Defined.

(** *** Who holds the flag *)

(** Every enabled continuation of [ensureOllamaReady], one goal for each
    resting point, answer of the network and value of the flag. *)
Ltac ensure_cases c pc ev :=
  destruct pc, ev; simpl; try discriminate;
  rewrite ?settle_checkOllamaHealth, ?settle_wakeComputer;
  try match goal with |- context [healthy ?o] => destruct (healthy o) end;
  try destruct (isWaking c) eqn:?.

(** A continuation that leaves the flag set either is itself inside the
    wake sequence afterwards, or was outside it and did not write the flag. *)
Lemma ensure_step_flag c pc ev pc' effs :
  ensure_step c pc ev = Some (true, pc', effs) ->
  in_wake_sequence pc' = true
  \/ (isWaking c = true /\ in_wake_sequence pc = false).
Proof.
  ensure_cases c pc ev; intros [= <- <-]; subst; auto; try discriminate.
Qed.

(** A continuation that ends the call from inside the wake sequence clears
    the flag; one that ends it leaving the flag set started at the first
    probe. *)
Lemma ensure_step_exit c pc ev w pc' effs :
  ensure_step c pc ev = Some (w, pc', effs) ->
  finished pc' = true ->
  (in_wake_sequence pc = true -> w = false)
  /\ (in_wake_sequence pc = false -> w = isWaking c /\ pc = E_probe1).
Proof.
  ensure_cases c pc ev;
    intros [= <- <- <-]; simpl; intros Hfin; try discriminate;
    (split; intros Hin; try discriminate; auto).
Qed.

Lemma step_inv (s s' : system) (l : label) (t : task) :
  step s l = Some s' ->
  tasks s !! who l = Some t ->
  exists w t' effs,
    task_step (checker s) t (what l) (clock l) = Some (w, t', effs)
    /\ checker s' = set_isWaking w (checker s)
    /\ tasks s' = <[who l := t']> (tasks s)
    /\ trace s' = (trace s ++ map (pair (who l)) effs)%list.
Proof.
  unfold step. intros H Ht. rewrite Ht in H.
  destruct (task_step (checker s) t (what l) (clock l)) as [[[w t'] effs] |];
    [| discriminate].
  injection H as <-. exists w, t', effs. repeat split.
Qed.

Lemma flag_owned_step (s s' : system) (l : label) :
  flag_owned s -> step s l = Some s' -> flag_owned s'.
Proof.
  intros Inv Hstep.
  destruct (tasks s !! who l) as [t |] eqn:Ht;
    [| unfold step in Hstep; rewrite Ht in Hstep; discriminate].
  destruct (step_inv _ _ _ _ Hstep Ht) as (w & t' & effs & Hts & Hc & Htasks & _).
  pose proof (lookup_lt_Some _ _ _ Ht) as Hlen.
  unfold flag_owned. rewrite Hc, Htasks. simpl. intros ->.
  assert (Hkeep : isWaking (checker s) = true ->
                  (forall pc, t = Ensure pc -> in_wake_sequence pc = false) ->
                  exists j pcj, <[who l := t']> (tasks s) !! j = Some (Ensure pcj)
                                /\ in_wake_sequence pcj = true).
  { intros Hw Hout. destruct (Inv Hw) as (j & pcj & Hj & Hin).
    exists j, pcj. split; [| exact Hin].
    rewrite list_lookup_insert_ne; [exact Hj |].
    intros Heq. rewrite Heq in Ht. rewrite Ht in Hj. injection Hj as ->.
    rewrite (Hout pcj eq_refl) in Hin. discriminate. }
  destruct t as [pc | req pc]; simpl in Hts.
  - destruct (ensure_step (checker s) pc (what l)) as [[[w0 pc'] effs0] |] eqn:E;
      [| discriminate].
    injection Hts as -> <- <-.
    destruct (ensure_step_flag _ _ _ _ _ E) as [Hin | [Hw Hout]].
    + exists (who l), pc'. split; [| exact Hin].
      apply list_lookup_insert_eq; exact Hlen.
    + apply Hkeep; [exact Hw |]. intros pc0 [= <-]. exact Hout.
  - destruct (chat_step (checker s) req pc (what l) (clock l)) as [[pc' effs0] |];
      [| discriminate].
    injection Hts as Hw _ _. apply Hkeep; [exact Hw |].
    intros pc0 [=].
Qed.

Lemma flag_owned_steps (schedule : list label) (s s' : system) :
  flag_owned s -> steps s schedule = Some s' -> flag_owned s'.
Proof.
  revert s. induction schedule as [| l rest IH]; simpl; intros s Inv H.
  - injection H as <-. exact Inv.
  - destruct (step s l) as [s1 |] eqn:E; [| discriminate].
    eapply IH; [eapply flag_owned_step; eassumption | exact H].
Qed.

(** C3, refuted as stated: call 0 returns [true] from its first probe while
    call 1, whose probe failed a moment earlier, is waiting for its wake call;
    [isWaking] is [true] right after call 0 has returned. *)
Lemma returns_while_flag_set :
  exists s,
    steps (boot demo [Ensure E_entry; Ensure E_entry]) overtaken = Some s
    /\ tasks s = [Ensure E_returned; Ensure E_wake]
    /\ isWaking (checker s) = true.
Proof. eexists. repeat split. Qed.

(** The flag right after a continuation has ended a call. *)
Lemma exit_leaves_flag (s s' : system) (l : label) (pc pc' : ensure_pc) :
  flag_owned s ->
  step s l = Some s' ->
  tasks s !! who l = Some (Ensure pc) ->
  tasks s' !! who l = Some (Ensure pc') ->
  finished pc' = true ->
  (in_wake_sequence pc = true -> isWaking (checker s') = false)
  /\ (isWaking (checker s') = true ->
      pc = E_probe1
      /\ isWaking (checker s) = true
      /\ exists j pcj, j <> who l
                       /\ tasks s' !! j = Some (Ensure pcj)
                       /\ in_wake_sequence pcj = true).
Proof.
  intros Inv Hstep Ht Ht' Hfin.
  pose proof (flag_owned_step _ _ _ Inv Hstep) as Inv'.
  destruct (step_inv _ _ _ _ Hstep Ht) as (w & t' & effs & Hts & Hck & Htasks & _).
  pose proof (lookup_lt_Some _ _ _ Ht) as Hlen.
  simpl in Hts.
  destruct (ensure_step (checker s) pc (what l)) as [[[w0 pc0] effs0] |] eqn:E;
    [| discriminate].
  injection Hts as <- <- <-.
  rewrite Htasks, list_lookup_insert_eq in Ht' by exact Hlen.
  injection Ht' as <-.
  destruct (ensure_step_exit _ _ _ _ _ _ E Hfin) as [Hin Hout].
  rewrite Hck; simpl. split.
  - exact Hin.
  - intros ->.
    destruct (in_wake_sequence pc) eqn:P; [specialize (Hin eq_refl); discriminate |].
    destruct (Hout eq_refl) as [Hw ->].
    split; [reflexivity |]. split; [symmetry; exact Hw |].
    assert (W' : isWaking (checker s') = true) by (rewrite Hck; reflexivity).
    destruct (Inv' W') as (j & pcj & Hj & Hjin).
    exists j, pcj. split; [| split; [exact Hj | exact Hjin]].
    intros ->. rewrite Htasks, list_lookup_insert_eq in Hj by exact Hlen.
    injection Hj as <-. destruct pc0; simpl in *; discriminate.
Qed.

Lemma flag_owned_boot (c : OllamaHealthChecker) (ts : list task) :
  isWaking c = false -> flag_owned (boot c ts).
Proof. intros Hc W. simpl in W. congruence. Qed.

Lemma step_length (s s' : system) (l : label) :
  step s l = Some s' -> length (tasks s') = length (tasks s).
Proof.
  intros H. destruct (tasks s !! who l) as [t |] eqn:Ht;
    [| unfold step in H; rewrite Ht in H; discriminate].
  destruct (step_inv _ _ _ _ H Ht) as (w & t' & effs & _ & _ & -> & _).
  apply length_insert.
Qed.

Lemma steps_length (schedule : list label) (s s' : system) :
  steps s schedule = Some s' -> length (tasks s') = length (tasks s).
Proof.
  revert s. induction schedule as [| l rest IH]; simpl; intros s H.
  - injection H as <-. reflexivity.
  - destruct (step s l) as [s1 |] eqn:E; [| discriminate].
    rewrite (IH _ H). eapply step_length; exact E.
Qed.

(** A call with no other call in flight leaves the flag [false] however it
    ends. *)
Lemma lone_call_leaves_flag_clear (c : OllamaHealthChecker)
    (schedule : list label) (s : system) (pc : ensure_pc) :
  isWaking c = false ->
  steps (boot c [Ensure E_entry]) schedule = Some s ->
  tasks s = [Ensure pc] ->
  finished pc = true ->
  isWaking (checker s) = false.
Proof.
  intros Hc. revert s pc.
  induction schedule as [| l rest IH] using rev_ind; intros s pc Hs Hts Hfin.
  - injection Hs as <-. exact Hc.
  - assert (exists s0, steps (boot c [Ensure E_entry]) rest = Some s0
                       /\ step s0 l = Some s) as (s0 & H0 & Hl).
    { clear - Hs. revert Hs. generalize (boot c [Ensure E_entry]).
      induction rest as [| l0 rest IH]; simpl; intros b Hs.
      - destruct (step b l) as [s1 |] eqn:E; [| discriminate].
        injection Hs as <-. exists b. split; [reflexivity | exact E].
      - destruct (step b l0) as [b1 |]; [apply IH; exact Hs | discriminate]. }
    pose proof (steps_length _ _ _ H0) as Hlen0. simpl in Hlen0.
    destruct (tasks s0) as [| t0 [| ? ?]] eqn:Hts0; try discriminate.
    assert (Hw : who l = 0%nat).
    { unfold step in Hl. rewrite Hts0 in Hl.
      destruct (who l) as [| n]; [reflexivity | simpl in Hl; discriminate]. }
    pose proof (flag_owned_steps _ _ _ (flag_owned_boot c _ Hc) H0) as Inv.
    destruct t0 as [pc0 | req0 pc0].
    + destruct (isWaking (checker s)) eqn:W; [| reflexivity].
      destruct (exit_leaves_flag s0 s l pc0 pc Inv Hl) as [_ Hset];
        [rewrite Hts0, Hw; reflexivity | rewrite Hts, Hw; reflexivity | exact Hfin |].
      destruct (Hset W) as (_ & _ & j & pcj & Hj & Hlook & _).
      rewrite Hts in Hlook. destruct j as [| j]; [congruence | discriminate].
    + destruct (step_inv s0 s l (Chat req0 pc0) Hl) as (w & t' & effs & E & _ & Hts' & _);
        [rewrite Hts0, Hw; reflexivity |].
      simpl in E. destruct (chat_step (checker s0) req0 pc0 (what l) (clock l))
        as [[p e] |]; [| discriminate].
      injection E as _ <- _. rewrite Hts0, Hw in Hts'. simpl in Hts'.
      rewrite Hts in Hts'. discriminate.
Qed.

(** A continuation that ends a call from outside its wake sequence is the
    one at the first probe, and it leaves the checker as it was. *)
Lemma exit_at_first_probe (s s' : system) (l : label) (pc pc' : ensure_pc) :
  step s l = Some s' ->
  tasks s !! who l = Some (Ensure pc) ->
  tasks s' !! who l = Some (Ensure pc') ->
  finished pc' = true ->
  in_wake_sequence pc = false ->
  pc = E_probe1 /\ checker s' = checker s.
Proof.
  intros Hstep Ht Ht' Hfin Hout.
  destruct (step_inv _ _ _ _ Hstep Ht) as (w & t' & effs & Hts & Hck & Htasks & _).
  pose proof (lookup_lt_Some _ _ _ Ht) as Hlen.
  simpl in Hts.
  destruct (ensure_step (checker s) pc (what l)) as [[[w0 pc0] effs0] |] eqn:E;
    [| discriminate].
  injection Hts as <- <- <-.
  rewrite Htasks, list_lookup_insert_eq in Ht' by exact Hlen.
  injection Ht' as <-.
  destruct (proj2 (ensure_step_exit _ _ _ _ _ _ E Hfin) Hout) as [-> ->].
  split; [reflexivity |]. rewrite Hck. apply set_isWaking_same.
Qed.

(** C3, as the code has it.  In every state the process can reach from a
    checker at rest, when a continuation ends a call of [ensureOllamaReady]
    (it returns or throws): if the call was inside its wake sequence, the flag
    is [false] right afterwards, whichever way it ended; otherwise the call
    ended at its first probe and did not write the flag, the checker being
    exactly as before; so the flag can be [true] right afterwards only if it
    was [true] before and another call is inside its own wake sequence, and
    it is [false] when no other call is.  At no time is the flag set with no
    wake sequence in flight. *)
Theorem flag_after_exit (c : OllamaHealthChecker) (ts : list task)
    (schedule : list label) (s s' : system) (l : label) (pc pc' : ensure_pc) :
  isWaking c = false ->
  steps (boot c ts) schedule = Some s ->
  step s l = Some s' ->
  tasks s !! who l = Some (Ensure pc) ->
  tasks s' !! who l = Some (Ensure pc') ->
  finished pc' = true ->
  (in_wake_sequence pc = true -> isWaking (checker s') = false)
  /\ (isWaking (checker s') = true ->
      pc = E_probe1
      /\ isWaking (checker s) = true
      /\ exists j pcj, j <> who l
                       /\ tasks s' !! j = Some (Ensure pcj)
                       /\ in_wake_sequence pcj = true)
  /\ flag_owned s /\ flag_owned s'
  /\ (in_wake_sequence pc = false ->
      pc = E_probe1
      /\ checker s' = checker s
      /\ isWaking (checker s') = isWaking (checker s))
  /\ ((forall j pcj, j <> who l -> tasks s' !! j = Some (Ensure pcj) ->
                     in_wake_sequence pcj = false) ->
      isWaking (checker s') = false).
Proof.
  intros Hc Hreach Hstep Ht Ht' Hfin.
  pose proof (flag_owned_steps _ _ _ (flag_owned_boot c ts Hc) Hreach) as Inv.
  destruct (exit_leaves_flag s s' l pc pc' Inv Hstep Ht Ht' Hfin) as [H1 H2].
  split; [exact H1 |]. split; [exact H2 |]. split; [exact Inv |].
  split; [eapply flag_owned_step; eassumption |]. split.
  - intros Hout.
    destruct (exit_at_first_probe s s' l pc pc' Hstep Ht Ht' Hfin Hout) as [Hpc Hck].
    split; [exact Hpc |]. split; [exact Hck |]. rewrite Hck. reflexivity.
  - intros Hnone. destruct (isWaking (checker s')) eqn:W; [| reflexivity].
    destruct (H2 eq_refl) as (_ & _ & j & pcj & Hj & Hlook & Hin).
    rewrite (Hnone j pcj Hj Hlook) in Hin. discriminate.
Qed.

Lemma flag_after_exit_witness :
  exists s s',
    steps (boot demo [Ensure E_entry])
          [at_ 0 Enter; at_ 0 (ProbeSettled down); at_ 0 (WakeSettled down)] = Some s'
    /\ steps (boot demo [Ensure E_entry]) [at_ 0 Enter; at_ 0 (ProbeSettled down)] = Some s
    /\ tasks s' = [Ensure (E_threw wakeFailed)]
    /\ isWaking (checker s) = true
    /\ isWaking (checker s') = false.
Proof.
  do 2 eexists.
  split; [reflexivity |]. split; [reflexivity |]. split; [reflexivity |].
  split; [reflexivity |].
  refine (proj1 (flag_after_exit demo [Ensure E_entry]
                   [at_ 0 Enter; at_ 0 (ProbeSettled down)] _ _
                   (at_ 0 (WakeSettled down)) E_wake (E_threw wakeFailed)
                   eq_refl eq_refl eq_refl eq_refl eq_refl eq_refl) eq_refl).
Defined.

(** ** Two chat calls at once *)

Lemma resume_chat_llama2 (now : string) (req : request) :
  asks_chat_llama2_stream req ->
  chatMiddleware_resume now req (Ok false) = (chat_stub_log now, Ok tt).
Proof.
  intros (G & C & fields & B & S & M).
  unfold chatMiddleware_resume, isStreaming, streaming_stub.
  rewrite B, G, C. simpl. rewrite S, M. reflexivity.
Qed.

Lemma wake_calls_of_app i tr tr' :
  wake_calls_of i (tr ++ tr') = (wake_calls_of i tr + wake_calls_of i tr')%nat.
Proof. unfold wake_calls_of. rewrite List.filter_app, length_app. reflexivity. Qed.

Lemma wake_calls_app tr tr' :
  wake_calls (tr ++ tr') = (wake_calls tr + wake_calls tr')%nat.
Proof. unfold wake_calls. rewrite List.filter_app, length_app. reflexivity. Qed.

Lemma wake_calls_of_tagged i j effs :
  wake_calls_of i (map (pair j) effs)
  = if Nat.eqb j i then length (List.filter is_wake effs) else 0%nat.
Proof.
  unfold wake_calls_of.
  induction effs as [| e effs IH]; simpl; [destruct (Nat.eqb j i); reflexivity |].
  destruct (Nat.eqb j i), (is_wake e); simpl; rewrite IH; reflexivity.
Qed.

Lemma wake_calls_tagged j effs :
  wake_calls (map (pair j) effs) = length (List.filter is_wake effs).
Proof.
  unfold wake_calls.
  induction effs as [| e effs IH]; simpl; [reflexivity |].
  destruct (is_wake e); simpl; rewrite IH; reflexivity.
Qed.

Lemma chat_step_down c req pc ev now pc' effs n :
  asks_chat_llama2_stream req ->
  (forall o, ev = ProbeSettled o -> healthy o = false) ->
  chat_step c req pc ev now = Some (pc', effs) ->
  chat_ok pc n ->
  chat_ok pc' (n + length (List.filter is_wake effs)).
Proof.
  intros Hreq Hdown Hstep Hok.
  destruct pc as [| | outcome [|]], ev; simpl in Hstep; try discriminate.
  - injection Hstep as <- <-. simpl in *. lia.
  - rewrite settle_checkOllamaHealth, (Hdown o eq_refl),
      (resume_chat_llama2 now req Hreq) in Hstep.
    simpl in Hstep. injection Hstep as <- <-. simpl in *. subst n.
    split; [reflexivity | exists now; reflexivity].
  - injection Hstep as <- <-. simpl in *. rewrite Nat.add_0_r. exact Hok.
Qed.

Section TwoChats.
Variable c : OllamaHealthChecker.
Variables r1 r2 : request.
Hypothesis asks1 : asks_chat_llama2_stream r1.
Hypothesis asks2 : asks_chat_llama2_stream r2.

Lemma two_chats_boot : two_chats c r1 r2 (boot c [Chat r1 C_entry; Chat r2 C_entry]).
Proof. split; [reflexivity |]. exists C_entry, C_entry. repeat split. Qed.

Lemma two_chats_step s s' l :
  (forall o, what l = ProbeSettled o -> healthy o = false) ->
  two_chats c r1 r2 s -> step s l = Some s' -> two_chats c r1 r2 s'.
Proof.
  intros Hdown (Hc & p1 & p2 & Hts & Hp1 & Hp2 & Hsum) Hstep.
  destruct l as [i ev now]; simpl in Hdown.
  destruct i as [| [| i]].
  - destruct (step_inv s s' _ (Chat r1 p1) Hstep)
      as (w & t' & effs & E & Hc' & Hts' & Htr'); [rewrite Hts; reflexivity |].
    simpl in E.
    destruct (chat_step (checker s) r1 p1 ev now) as [[p1' effs1] |] eqn:E1;
      [| discriminate].
    injection E as <- <- <-.
    pose proof (chat_step_down _ _ _ _ _ _ _ _ asks1 Hdown E1 Hp1) as Hp1'.
    split; [rewrite Hc', set_isWaking_same; exact Hc |].
    exists p1', p2. rewrite Hts', Hts, Htr'. simpl who.
    split; [reflexivity |].
    rewrite !wake_calls_of_app, wake_calls_app, !wake_calls_of_tagged,
      wake_calls_tagged; simpl Nat.eqb; cbv iota.
    rewrite Nat.add_0_r.
    split; [exact Hp1' |]. split; [exact Hp2 | lia].
  - destruct (step_inv s s' _ (Chat r2 p2) Hstep)
      as (w & t' & effs & E & Hc' & Hts' & Htr'); [rewrite Hts; reflexivity |].
    simpl in E.
    destruct (chat_step (checker s) r2 p2 ev now) as [[p2' effs2] |] eqn:E2;
      [| discriminate].
    injection E as <- <- <-.
    pose proof (chat_step_down _ _ _ _ _ _ _ _ asks2 Hdown E2 Hp2) as Hp2'.
    split; [rewrite Hc', set_isWaking_same; exact Hc |].
    exists p1, p2'. rewrite Hts', Hts, Htr'. simpl who.
    split; [reflexivity |].
    rewrite !wake_calls_of_app, wake_calls_app, !wake_calls_of_tagged,
      wake_calls_tagged; simpl Nat.eqb; cbv iota.
    rewrite Nat.add_0_r.
    split; [exact Hp1 |]. split; [exact Hp2' | lia].
  - unfold step in Hstep. rewrite Hts in Hstep. simpl in Hstep. discriminate.
Qed.

Lemma two_chats_steps schedule s s' :
  backend_down schedule ->
  two_chats c r1 r2 s -> steps s schedule = Some s' -> two_chats c r1 r2 s'.
Proof.
  intros Hdown. revert s.
  induction Hdown as [| l rest Hl _ IH]; simpl; intros s Inv H.
  - injection H as <-. exact Inv.
  - destruct (step s l) as [s1 |] eqn:E; [| discriminate].
    eapply IH; [eapply two_chats_step; eassumption | exact H].
Qed.
End TwoChats.

(** C8: two chat calls for a streaming [llama2] request on a Chat path,
    in flight together while the backend is down.  Entered one after the
    other before either probe settles, both run to completion; and however
    their continuations interleave, once both have finished each has sent
    status 200 and exactly one NDJSON line whose [message.role] is
    [assistant], whose [message.content] is a non-empty text and whose [done]
    is [true]; each has made one wake call of its own, two in all; and
    [isWaking] is as it was, whatever it was. *)
Theorem two_chat_calls_while_down (c : OllamaHealthChecker) (r1 r2 : request) :
  asks_chat_llama2_stream r1 ->
  asks_chat_llama2_stream r2 ->
  (forall o1 o2 now1 now2,
     healthy o1 = false -> healthy o2 = false ->
     exists s,
       steps (boot c [Chat r1 C_entry; Chat r2 C_entry])
             (simultaneous o1 o2 now1 now2) = Some s
       /\ tasks s = [Chat r1 (C_finished (chat_stub_log now1, Ok tt) true);
                     Chat r2 (C_finished (chat_stub_log now2, Ok tt) true)])
  /\ (forall schedule s out1 d1 out2 d2,
        backend_down schedule ->
        steps (boot c [Chat r1 C_entry; Chat r2 C_entry]) schedule = Some s ->
        tasks s = [Chat r1 (C_finished out1 d1); Chat r2 (C_finished out2 d2)] ->
        (exists now1, out1 = (chat_stub_log now1, Ok tt))
        /\ (exists now2, out2 = (chat_stub_log now2, Ok tt))
        /\ wake_calls_of 0 (trace s) = 1%nat
        /\ wake_calls_of 1 (trace s) = 1%nat
        /\ wake_calls (trace s) = 2%nat
        /\ checker s = c)
  /\ (forall now,
        statusCode (chat_stub_log now) = 200
        /\ written (chat_stub_log now) = [chat_chunk now]
        /\ field (field (chat_chunk now) "message") "role" = VStr "assistant"
        /\ field (field (chat_chunk now) "message") "content" = VStr wakingUpText
        /\ wakingUpText <> ""
        /\ field (chat_chunk now) "done" = VBool true
        /\ field (chat_chunk now) "model" = VStr "llama2").
Proof.
  intros H1 H2. split; [| split].
  - intros o1 o2 now1 now2 D1 D2. eexists.
    unfold simultaneous.
    cbn -[chatMiddleware_resume settle checkOllamaHealth].
    rewrite settle_checkOllamaHealth, D1, (resume_chat_llama2 now1 r1 H1).
    cbn -[chatMiddleware_resume settle checkOllamaHealth].
    rewrite settle_checkOllamaHealth, D2, (resume_chat_llama2 now2 r2 H2).
    cbn. split; reflexivity.
  - intros schedule s out1 d1 out2 d2 Hdown Hsteps Hts.
    destruct (two_chats_steps c r1 r2 H1 H2 _ _ _ Hdown (two_chats_boot c r1 r2) Hsteps)
      as (Hc & p1 & p2 & Hts' & Hp1 & Hp2 & Hsum).
    rewrite Hts in Hts'. injection Hts' as <- <-.
    destruct Hp1 as [N1 E1], Hp2 as [N2 E2].
    repeat split; try assumption. lia.
  - intros now. repeat split. discriminate.
Qed.

Lemma two_chat_calls_while_down_witness :
  asks_chat_llama2_stream chat_llama2
  /\ exists s,
       steps (boot demo [Chat chat_llama2 C_entry; Chat chat_llama2 C_entry])
             (simultaneous down down "t1" "t2") = Some s
       /\ wake_calls (trace s) = 2%nat.
Proof.
  assert (A : asks_chat_llama2_stream chat_llama2).
  { split; [reflexivity |]. split; [reflexivity |].
    eexists. split; [reflexivity |]. split; reflexivity. }
  split; [exact A |].
  destruct (two_chat_calls_while_down demo chat_llama2 chat_llama2 A A)
    as (Hrun & Hall & _).
  destruct (Hrun down down "t1" "t2" eq_refl eq_refl) as (s & Hs & Hts).
  exists s. split; [exact Hs |].
  assert (D : backend_down (simultaneous down down "t1" "t2")).
  { repeat apply backend_down_cons; try (intros o [=]; subst; reflexivity).
    constructor. }
  exact (proj1 (proj2 (proj2 (proj2 (proj2 (Hall _ _ _ _ _ _ D Hs Hts)))))).
Defined.

(** * Further properties *)

(** ** What every call has started *)

Lemma probe_calls_of_app i tr tr' :
  probe_calls_of i (tr ++ tr') = (probe_calls_of i tr + probe_calls_of i tr')%nat.
Proof. unfold probe_calls_of. rewrite List.filter_app, length_app. reflexivity. Qed.

Lemma probe_calls_of_tagged i j effs :
  probe_calls_of i (map (pair j) effs)
  = if Nat.eqb j i then length (List.filter is_probe effs) else 0%nat.
Proof.
  unfold probe_calls_of.
  induction effs as [| e effs IH]; simpl; [destruct (Nat.eqb j i); reflexivity |].
  destruct (Nat.eqb j i), (is_probe e); simpl; rewrite IH; reflexivity.
Qed.

Lemma accounted_ensure c pc ev fl pc' effs p w :
  ensure_step c pc ev = Some (fl, pc', effs) ->
  accounted (Ensure pc) p w ->
  accounted (Ensure pc') (p + length (List.filter is_probe effs))
                         (w + length (List.filter is_wake effs)).
Proof.
  ensure_cases c pc ev; intros [= <- <- <-]; simpl; intros [-> ->]; simpl; auto.
Qed.

Lemma accounted_chat c req pc ev now pc' effs p w :
  chat_step c req pc ev now = Some (pc', effs) ->
  accounted (Chat req pc) p w ->
  accounted (Chat req pc') (p + length (List.filter is_probe effs))
                           (w + length (List.filter is_wake effs)).
Proof.
  destruct pc as [| | outcome [|]], ev; simpl; try discriminate.
  - intros [= <- <-] [-> ->]. simpl. auto.
  - destruct (wake_fired _) eqn:F; intros [= <- <-] [-> ->]; simpl;
      rewrite F; auto.
  - intros [= <- <-] [-> ->]. simpl. rewrite !Nat.add_0_r. auto.
Qed.

Lemma accounted_task c t ev now fl t' effs p w :
  task_step c t ev now = Some (fl, t', effs) ->
  accounted t p w ->
  accounted t' (p + length (List.filter is_probe effs))
               (w + length (List.filter is_wake effs)).
Proof.
  destruct t as [pc | req pc]; simpl.
  - destruct (ensure_step c pc ev) as [[[fl0 pc'] effs0] |] eqn:E; [| discriminate].
    intros [= <- <- <-]. eapply accounted_ensure; exact E.
  - destruct (chat_step c req pc ev now) as [[pc' effs0] |] eqn:E; [| discriminate].
    intros [= <- <- <-]. eapply accounted_chat; exact E.
Qed.

Lemma all_accounted_boot (c : OllamaHealthChecker) (ts : list task) :
  forallb fresh ts = true -> all_accounted (boot c ts).
Proof.
  intros Hfresh i t Ht. simpl in *.
  assert (Hf : fresh t = true).
  { rewrite forallb_forall in Hfresh. apply Hfresh.
    apply list_elem_of_In. eapply list_elem_of_lookup_2; exact Ht. }
  destruct t as [[] | req []]; simpl in Hf; try discriminate; split; reflexivity.
Qed.

Lemma all_accounted_step (s s' : system) (l : label) :
  all_accounted s -> step s l = Some s' -> all_accounted s'.
Proof.
  intros Inv Hstep.
  destruct (tasks s !! who l) as [t |] eqn:Ht;
    [| unfold step in Hstep; rewrite Ht in Hstep; discriminate].
  destruct (step_inv _ _ _ _ Hstep Ht) as (w & t' & effs & Hts & _ & Htasks & Htrace).
  pose proof (lookup_lt_Some _ _ _ Ht) as Hlen.
  intros i ti Hi. rewrite Htrace, probe_calls_of_app, wake_calls_of_app,
    probe_calls_of_tagged, wake_calls_of_tagged.
  rewrite Htasks in Hi.
  destruct (Nat.eqb (who l) i) eqn:E.
  - apply Nat.eqb_eq in E. subst i.
    rewrite list_lookup_insert_eq in Hi by exact Hlen. injection Hi as <-.
    eapply accounted_task; [exact Hts | apply Inv; exact Ht].
  - apply Nat.eqb_neq in E.
    rewrite list_lookup_insert_ne in Hi by exact E.
    rewrite !Nat.add_0_r. apply Inv; exact Hi.
Qed.

Lemma all_accounted_steps (schedule : list label) (s s' : system) :
  all_accounted s -> steps s schedule = Some s' -> all_accounted s'.
Proof.
  revert s. induction schedule as [| l rest IH]; simpl; intros s Inv H.
  - injection H as <-. exact Inv.
  - destruct (step s l) as [s1 |] eqn:E; [| discriminate].
    eapply IH; [eapply all_accounted_step; eassumption | exact H].
Qed.

Lemma thrown_is_known (c : OllamaHealthChecker) (ts : list task)
    (schedule : list label) (s : system) (i : nat) (e : js_error) :
  forallb fresh ts = true ->
  steps (boot c ts) schedule = Some s ->
  tasks s !! i = Some (Ensure (E_threw e)) ->
  e = wakeFailed \/ e = stillUnhealthy.
Proof.
  intros Hfresh Hsteps Hi.
  pose proof (all_accounted_steps _ _ _ (all_accounted_boot c ts Hfresh) Hsteps i _ Hi)
    as [(-> & _) | (-> & _)]; auto.
Qed.

(** X1: whatever the schedule, a call of [ensureOllamaReady] that has thrown
    has thrown one of two errors, [wakeFailed] or [stillUnhealthy], and had
    made exactly one wake call; no error of the leaf methods ever escapes
    through it. *)
Theorem ensureOllamaReady_throws_two_errors (c : OllamaHealthChecker)
    (ts : list task) (schedule : list label) (s : system) (i : nat)
    (e : js_error) :
  forallb fresh ts = true ->
  steps (boot c ts) schedule = Some s ->
  tasks s !! i = Some (Ensure (E_threw e)) ->
  (e = wakeFailed /\ probe_calls_of i (trace s) = 1%nat
   \/ e = stillUnhealthy /\ probe_calls_of i (trace s) = 2%nat)
  /\ wake_calls_of i (trace s) = 1%nat.
Proof.
  intros Hfresh Hsteps Hi.
  pose proof (all_accounted_steps _ _ _ (all_accounted_boot c ts Hfresh) Hsteps i _ Hi)
    as [(-> & Hp & Hw) | (-> & Hp & Hw)]; auto.
Qed.

Lemma ensureOllamaReady_throws_two_errors_witness :
  exists s,
    steps (boot demo [Ensure E_entry])
          [at_ 0 Enter; at_ 0 (ProbeSettled down); at_ 0 (WakeSettled down)] = Some s
    /\ wake_calls_of 0 (trace s) = 1%nat.
Proof.
  eexists. split; [reflexivity |].
  exact (proj2 (ensureOllamaReady_throws_two_errors demo [Ensure E_entry]
                  [at_ 0 Enter; at_ 0 (ProbeSettled down); at_ 0 (WakeSettled down)]
                  _ 0%nat wakeFailed eq_refl eq_refl eq_refl)).
Defined.

(** X2: whatever the schedule, no call makes more than one wake call or more
    than two probes; a chat call makes at most one probe; a call that is
    waiting in the polling loop has started neither; and a call of
    [ensureOllamaReady] that returned made a wake call exactly when it probed
    twice. *)
Theorem calls_are_bounded (c : OllamaHealthChecker) (ts : list task)
    (schedule : list label) (s : system) (i : nat) (t : task) :
  forallb fresh ts = true ->
  steps (boot c ts) schedule = Some s ->
  tasks s !! i = Some t ->
  (wake_calls_of i (trace s) <= 1)%nat
  /\ (probe_calls_of i (trace s) <= 2)%nat
  /\ (forall req pc, t = Chat req pc -> (probe_calls_of i (trace s) <= 1)%nat)
  /\ (t = Ensure E_poll ->
      probe_calls_of i (trace s) = 0%nat /\ wake_calls_of i (trace s) = 0%nat)
  /\ (t = Ensure E_returned ->
      probe_calls_of i (trace s) = (1 + wake_calls_of i (trace s))%nat).
Proof.
  intros Hfresh Hsteps Hi.
  pose proof (all_accounted_steps _ _ _ (all_accounted_boot c ts Hfresh) Hsteps i _ Hi)
    as Hacc.
  repeat split.
  - destruct t as [[] | req []]; simpl in Hacc;
      try destruct (wake_fired _); lia.
  - destruct t as [[] | req []]; simpl in Hacc; lia.
  - intros req pc ->. destruct pc; simpl in Hacc; lia.
  - subst t; simpl in Hacc; lia.
  - subst t; simpl in Hacc; lia.
  - intros ->. simpl in Hacc. lia.
Qed.

Lemma calls_are_bounded_witness :
  exists s,
    steps (boot demo [Ensure E_entry; Ensure E_entry]) race = Some s
    /\ (wake_calls_of 1 (trace s) <= 1)%nat.
Proof.
  eexists. split; [reflexivity |].
  exact (proj1 (calls_are_bounded demo [Ensure E_entry; Ensure E_entry] race _
                  1%nat (Ensure E_wake) eq_refl eq_refl eq_refl)).
Defined.

(** *** The number of wake calls in all *)

Lemma may_wake_task c t ev now fl t' effs :
  task_step c t ev now = Some (fl, t', effs) ->
  (length (List.filter is_wake effs) + may_wake t' <= may_wake t)%nat.
Proof.
  destruct t as [pc | req pc]; simpl.
  - destruct (ensure_step c pc ev) as [[[fl0 pc'] effs0] |] eqn:E; [| discriminate].
    intros [= <- <- <-]. revert E.
    ensure_cases c pc ev; intros [= <- <- <-]; simpl; lia.
  - destruct (chat_step c req pc ev now) as [[pc' effs0] |] eqn:E; [| discriminate].
    intros [= <- <- <-]. revert E.
    destruct pc as [| | outcome [|]], ev; simpl; try discriminate.
    + intros [= <- <-]; simpl; lia.
    + destruct (wake_fired _); intros [= <- <-]; simpl; lia.
    + intros [= <- <-]; simpl; lia.
Qed.

Lemma sum_insert {A} (f : A -> nat) (l : list A) (i : nat) (x y : A) :
  l !! i = Some x ->
  (sum_list_with f (<[i := y]> l) + f x = sum_list_with f l + f y)%nat.
Proof.
  revert i. induction l as [| a l IH]; intros [| i] H; simpl in *; try discriminate.
  - injection H as ->. lia.
  - specialize (IH i H). lia.
Qed.

Lemma sum_may_wake_le (ts : list task) :
  (sum_list_with may_wake ts <= length ts)%nat.
Proof.
  induction ts as [| t ts IH]; simpl; [lia |].
  assert (may_wake t <= 1)%nat by (destruct t as [[] | req []]; simpl; lia). lia.
Qed.

Lemma wake_budget_step (s s' : system) (l : label) :
  wake_budget s -> step s l = Some s' -> wake_budget s'.
Proof.
  unfold wake_budget. intros Inv Hstep.
  destruct (tasks s !! who l) as [t |] eqn:Ht;
    [| unfold step in Hstep; rewrite Ht in Hstep; discriminate].
  destruct (step_inv _ _ _ _ Hstep Ht) as (w & t' & effs & Hts & _ & Htasks & Htrace).
  rewrite Htrace, Htasks, wake_calls_app, wake_calls_tagged, length_insert.
  pose proof (may_wake_task _ _ _ _ _ _ _ Hts).
  pose proof (sum_insert may_wake _ _ _ t' Ht). lia.
Qed.

Lemma wake_budget_steps (schedule : list label) (s s' : system) :
  wake_budget s -> steps s schedule = Some s' -> wake_budget s'.
Proof.
  revert s. induction schedule as [| l rest IH]; simpl; intros s Inv H.
  - injection H as <-. exact Inv.
  - destruct (step s l) as [s1 |] eqn:E; [| discriminate].
    eapply IH; [eapply wake_budget_step; eassumption | exact H].
Qed.

(** X3: however many calls of either kind are in flight and however they
    interleave, the number of wake calls made in all never exceeds the number
    of calls, and it stays below it by the number of calls that have not yet
    seen their first probe settle. *)
Theorem wake_calls_at_most_calls (c : OllamaHealthChecker) (ts : list task)
    (schedule : list label) (s : system) :
  steps (boot c ts) schedule = Some s ->
  (wake_calls (trace s) + sum_list_with may_wake (tasks s) <= length ts)%nat
  /\ (wake_calls (trace s) <= length ts)%nat.
Proof.
  intros Hsteps.
  assert (B : wake_budget (boot c ts)).
  { unfold wake_budget; simpl. apply sum_may_wake_le. }
  pose proof (wake_budget_steps _ _ _ B Hsteps) as H. unfold wake_budget in H.
  rewrite (steps_length _ _ _ Hsteps) in H. simpl in H. lia.
Qed.

Lemma wake_calls_at_most_calls_witness :
  exists s,
    steps (boot demo [Ensure E_entry; Ensure E_entry]) race = Some s
    /\ (wake_calls (trace s) <= 2)%nat.
Proof.
  eexists. split; [reflexivity |].
  exact (proj2 (wake_calls_at_most_calls demo [Ensure E_entry; Ensure E_entry] race _
                  eq_refl)).
Defined.

(** ** Waiting and finishing *)

Lemma steps_app (s : system) (sched1 sched2 : list label) :
  steps s (sched1 ++ sched2)
  = match steps s sched1 with
    | Some s1 => steps s1 sched2
    | None => None
    end.
Proof.
  revert s. induction sched1 as [| l rest IH]; simpl; intros s; [reflexivity |].
  destruct (step s l); [apply IH | reflexivity].
Qed.

(** X4: the polling loop has no bound of its own.  A caller that finds
    [isWaking] set, and for which it stays set, is still waiting after any
    number of timer ticks; all it has done is to start one-second timers, one
    on entry and one per tick, and it has made no probe and no wake call. *)
Theorem polling_never_gives_up (c : OllamaHealthChecker) (n : nat) :
  isWaking c = true ->
  steps (boot c [Ensure E_entry]) (at_ 0 Enter :: repeat (at_ 0 TimerFired) n)
  = Some {| checker := c;
            tasks := [Ensure E_poll];
            trace := repeat (0%nat, setTimeout 1000) (S n) |}.
Proof.
  intros Hc.
  assert (Hset : set_isWaking true c = c)
    by (rewrite <- Hc; apply set_isWaking_same).
  assert (Hpoll : forall k tr,
             steps (mkSystem c [Ensure E_poll] tr) (repeat (at_ 0 TimerFired) k)
             = Some (mkSystem c [Ensure E_poll]
                              (tr ++ repeat (0%nat, setTimeout 1000) k))).
  { induction k as [| k IH]; intros tr; simpl.
    - rewrite app_nil_r. reflexivity.
    - unfold step; simpl. rewrite Hc, Hset. simpl.
      rewrite IH, <- app_assoc. reflexivity. }
  simpl. unfold step; simpl. rewrite Hc, Hset. simpl.
  rewrite Hpoll. reflexivity.
Qed.

Lemma polling_never_gives_up_witness :
  steps (boot (set_isWaking true demo) [Ensure E_entry])
        [at_ 0 Enter; at_ 0 TimerFired; at_ 0 TimerFired]
  = Some {| checker := set_isWaking true demo;
            tasks := [Ensure E_poll];
            trace := repeat (0%nat, setTimeout 1000) 3 |}.
Proof. exact (polling_never_gives_up (set_isWaking true demo) 2 eq_refl). Defined.

Lemma remaining_decreases c pc ev fl pc' effs :
  ensure_step c pc ev = Some (fl, pc', effs) ->
  past_polling pc = true ->
  past_polling pc' = true /\ (S (remaining pc') <= remaining pc)%nat.
Proof.
  ensure_cases c pc ev; intros [= <- <- <-]; simpl; intros; try discriminate;
    split; auto; lia.
Qed.

Lemma resumptions_bounded (schedule : list label) (s s' : system) (i : nat)
    (pc : ensure_pc) :
  steps s schedule = Some s' ->
  tasks s !! i = Some (Ensure pc) ->
  past_polling pc = true ->
  exists pc', tasks s' !! i = Some (Ensure pc')
              /\ past_polling pc' = true
              /\ (resumptions i schedule + remaining pc' <= remaining pc)%nat.
Proof.
  revert s pc. induction schedule as [| l rest IH]; simpl; intros s pc Hsteps Hi Hpast.
  - injection Hsteps as <-. exists pc. repeat split; auto.
  - destruct (step s l) as [s1 |] eqn:Hstep; [| discriminate].
    destruct (tasks s !! who l) as [t |] eqn:Ht;
      [| unfold step in Hstep; rewrite Ht in Hstep; discriminate].
    destruct (step_inv _ _ _ _ Hstep Ht) as (w & t' & effs & Hts & _ & Htasks & _).
    pose proof (lookup_lt_Some _ _ _ Ht) as Hlen.
    unfold resumptions in *; simpl.
    destruct (Nat.eqb (who l) i) eqn:E.
    + apply Nat.eqb_eq in E. subst i. rewrite Ht in Hi. injection Hi as ->.
      simpl in Hts.
      destruct (ensure_step (checker s) pc (what l)) as [[[fl pc1] effs1] |] eqn:E1;
        [| discriminate].
      injection Hts as <- <- <-.
      destruct (remaining_decreases _ _ _ _ _ _ E1 Hpast) as [Hpast1 Hdec].
      destruct (IH s1 pc1 Hsteps) as (pc' & Hi' & Hp' & Hle); auto.
      { rewrite Htasks. apply list_lookup_insert_eq; exact Hlen. }
      exists pc'. repeat split; auto. simpl. lia.
    + apply Nat.eqb_neq in E.
      destruct (IH s1 pc Hsteps) as (pc' & Hi' & Hp' & Hle); auto.
      { rewrite Htasks, list_lookup_insert_ne by exact E. exact Hi. }
      exists pc'. repeat split; auto.
Qed.

(** X5: there is no retry loop.  From the moment its first probe is under
    way, a call of [ensureOllamaReady] is resumed at most four times by any
    schedule - probe, wake call, delay, second probe - whatever the other
    calls do and whatever the network answers. *)
Theorem no_retry_loop (s s' : system) (schedule : list label) (i : nat) :
  tasks s !! i = Some (Ensure E_probe1) ->
  steps s schedule = Some s' ->
  (resumptions i schedule <= 4)%nat
  /\ (resumptions i schedule = 4%nat ->
      exists pc, tasks s' !! i = Some (Ensure pc) /\ finished pc = true).
Proof.
  intros Hi Hsteps.
  destruct (resumptions_bounded _ _ _ _ _ Hsteps Hi eq_refl) as (pc' & Hi' & _ & Hle).
  simpl in Hle. split; [lia |].
  intros H4. exists pc'. split; [exact Hi' |].
  destruct pc'; simpl in *; try reflexivity; lia.
Qed.

Lemma no_retry_loop_witness :
  let s := mkSystem demo [Ensure E_probe1] [(0%nat, call_checkOllamaHealth)] in
  let schedule := [at_ 0 (ProbeSettled down); at_ 0 (WakeSettled (NetStatus 200));
                   at_ 0 TimerFired; at_ 0 (ProbeSettled down)] in
  tasks s !! 0%nat = Some (Ensure E_probe1)
  /\ (resumptions 0 schedule <= 4)%nat.
Proof.
  intros s schedule. split; [reflexivity |].
  destruct (steps s schedule) as [s' |] eqn:E; [| discriminate E].
  exact (proj1 (no_retry_loop s s' schedule 0%nat eq_refl E)).
Defined.

(** ** The blocking middleware *)

(** X6: what the blocking route answers.  In any state the process reaches,
    the handler of [middleware()] around a settled call of
    [ensureOllamaReady] either calls [next], exactly when the call returned,
    or sends status 503 with the body [Service Unavailable] whose [details]
    is the message of [wakeFailed] or of [stillUnhealthy]; it never does
    both and never lets an exception out. *)
Theorem middleware_replies (c : OllamaHealthChecker) (ts : list task)
    (schedule : list label) (s : system) (i : nat) (pc : ensure_pc)
    (outcome : result bool) :
  forallb fresh ts = true ->
  steps (boot c ts) schedule = Some s ->
  tasks s !! i = Some (Ensure pc) ->
  ensure_outcome pc = Some outcome ->
  exists log,
    middleware_resume outcome = (log, Ok tt)
    /\ completes_once log = true
    /\ (pc = E_returned -> log = [next])
    /\ (pc <> E_returned ->
        exists details,
          (details = message wakeFailed \/ details = message stillUnhealthy)
          /\ statusCode log = 503
          /\ log = [res_status 503;
                    res_json (VObj [("error", VStr "Service Unavailable");
                                    ("message", VStr "Nie można nawiązać połączenia z Ollama");
                                    ("details", VStr details)])]).
Proof.
  intros Hfresh Hsteps Hi Hout.
  destruct pc; simpl in Hout; try discriminate; injection Hout as <-.
  - eexists. split; [reflexivity |]. split; [reflexivity |].
    split; [reflexivity | congruence].
  - destruct (thrown_is_known _ _ _ _ _ _ Hfresh Hsteps Hi) as [-> | ->];
      (eexists; split; [reflexivity |]; split; [reflexivity |];
       split; [discriminate |]; intros _; eexists;
       split; [| split; reflexivity]); auto.
Qed.

Lemma middleware_replies_witness :
  exists s,
    steps (boot demo [Ensure E_entry])
          [at_ 0 Enter; at_ 0 (ProbeSettled down); at_ 0 (WakeSettled down)] = Some s
    /\ exists log, middleware_resume (Throw wakeFailed) = (log, Ok tt).
Proof.
  eexists. split; [reflexivity |].
  destruct (middleware_replies demo [Ensure E_entry]
              [at_ 0 Enter; at_ 0 (ProbeSettled down); at_ 0 (WakeSettled down)]
              _ 0%nat (E_threw wakeFailed) (Throw wakeFailed)
              eq_refl eq_refl eq_refl eq_refl) as (log & H & _).
  exists log. exact H.
Defined.

(** ** The chat handler, every request *)

Lemma prefix_spec (p s : string) :
  String.prefix p s = true <-> exists rest, s = p ++ rest.
Proof.
  revert s. induction p as [| a p IH]; intros s.
  - destruct s; simpl; split; eauto.
  - destruct s as [| b s]; simpl.
    + split; [discriminate | intros (rest & [=])].
    + destruct (ascii_dec a b) as [-> | Hne].
      * rewrite IH. split; intros (rest & H); exists rest; [subst | injection H]; auto.
      * split; [discriminate | intros (rest & [= H _]); congruence].
Qed.

(** [includes] finds exactly the occurrences of a text. *)
Lemma includes_spec (hay needle : string) :
  includes hay needle = true <-> occurs_in needle hay.
Proof.
  unfold occurs_in. induction hay as [| a hay IH].
  - cbn [includes]. rewrite orb_false_r, prefix_spec. split.
    + intros (rest & H). exists "", rest. exact H.
    + intros ([| b before] & after & H); simpl in H; [eauto | discriminate].
  - cbn [includes]. rewrite orb_true_iff, IH, prefix_spec. split.
    + intros [(rest & H) | (before & after & H)].
      * exists "", rest. exact H.
      * exists (String a before), after. simpl. rewrite H. reflexivity.
    + intros ([| b before] & after & H); simpl in H.
      * left. eauto.
      * right. injection H as _ H. eauto.
Qed.

Lemma includes_false (hay needle : string) :
  includes hay needle = false <-> ~ occurs_in needle hay.
Proof.
  rewrite <- includes_spec. destruct (includes hay needle); split; congruence.
Qed.

(** X7: the chat handler answers every request exactly once.  For every
    request, every clock reading and every way the probe can settle - even a
    rejection - the handler lets no exception out, performs exactly one
    completing action ([next], [res.json] or [res.end]) and performs it last;
    it calls [next] exactly when the probe was healthy and starts the wake
    call exactly when the probe was unhealthy. *)
Theorem chat_handler_answers_once (now : string) (req : request)
    (probe : result bool) :
  exists log,
    chatMiddleware_resume now req probe = (log, Ok tt)
    /\ completes_once log = true
    /\ (In next log <-> probe = Ok true)
    /\ (wake_fired log = true <-> probe = Ok false).
Proof.
  destruct probe as [[|] | e].
  - eexists. split; [reflexivity |]. split; [reflexivity |].
    split; split; simpl; auto; discriminate.
  - destruct (isStreaming_spec (body req)) as (v & Hv & _).
    unfold chatMiddleware_resume, streaming_stub, json_stub. simpl. rewrite Hv.
    destruct (includes (path req) "/generate"), (includes (path req) "/chat"),
      (get_property (body req) "model") as [m | e]; simpl;
      destruct (truthy v); simpl;
      (eexists; split; [reflexivity |]; split; [reflexivity |];
       split; split; simpl; auto; try discriminate;
       intros H; repeat destruct H as [H | H]; try discriminate; try contradiction).
  - eexists. split; [reflexivity |]. split; [reflexivity |].
    split; split; simpl; try discriminate.
    intros H; repeat destruct H as [H | H]; try discriminate; contradiction.
Qed.

(** X8: a request that reaches the chat handler without a parsed body
    ([req.body] is [undefined] or [null]) on a [/generate] or [/chat] path,
    while the backend is down, is answered with status 503 and the [error]
    envelope carrying a [TypeError] message about [model]; the wake call has
    been started all the same. *)
Theorem chat_handler_without_body (now : string) (req : request) :
  present (body req) = false ->
  recognized (path req) = true ->
  exists text log,
    chatMiddleware_resume now req (Ok false) = (log, Ok tt)
    /\ get_property (body req) "model" = Throw (Error text)
    /\ log = fire_wakeComputer :: fst (error_reply now (Error text))
    /\ statusCode log = 503
    /\ option_map (fun sent => field sent "status") (json_sent log) = Some (VStr "error")
    /\ option_map (fun sent => field sent "error") (json_sent log) = Some (VStr text).
Proof.
  intros Hbody Hpath. unfold recognized in Hpath.
  unfold chatMiddleware_resume, isStreaming, streaming_stub, json_stub.
  destruct (body req); simpl in Hbody; try discriminate; simpl;
    destruct (includes (path req) "/generate"), (includes (path req) "/chat");
    simpl in Hpath; try discriminate; simpl;
    do 2 eexists; repeat split.
Qed.

Lemma chat_handler_without_body_witness :
  present (body (mkReq "/api/chat" VUndefined)) = false
  /\ exists log,
       chatMiddleware_resume "t" (mkReq "/api/chat" VUndefined) (Ok false) = (log, Ok tt)
       /\ statusCode log = 503.
Proof.
  split; [reflexivity |].
  destruct (chat_handler_without_body "t" (mkReq "/api/chat" VUndefined) eq_refl eq_refl)
    as (text & log & H & _ & _ & Hs & _).
  exists log. split; assumption.
Defined.

Lemma stub_payload (now : string) (req : request) :
  present (body req) = true ->
  recognized (path req) = true ->
  exists log payload,
    chatMiddleware_resume now req (Ok false) = (log, Ok tt)
    /\ payload_of log = Some payload
    /\ field payload "model" = js_or (field (body req) "model") (VStr "unknown")
    /\ (if includes (path req) "/generate"
        then field payload "response" = VStr wakingUpText
             /\ field payload "message" = VUndefined
        else field (field payload "message") "content" = VStr wakingUpText
             /\ field payload "response" = VUndefined).
Proof.
  intros Hbody Hpath. unfold recognized in Hpath.
  destruct (isStreaming_spec (body req)) as (v & Hv & _).
  unfold chatMiddleware_resume, streaming_stub, json_stub. simpl.
  rewrite Hv, (get_property_present _ "model" Hbody).
  destruct (includes (path req) "/generate"), (includes (path req) "/chat");
    simpl in Hpath; try discriminate; simpl; destruct (truthy v); simpl;
    do 2 eexists; repeat split.
Qed.

(** X9: the stub names the model the client asked for.  For a request with
    a body on a [/generate] or [/chat] path, handled while the backend is
    down, the one payload sent has as [model] the request's [model] when that
    is truthy and the text [unknown] otherwise - also when the field is
    missing, empty, [null], [false] or [0]. *)
Theorem stub_echoes_model (now : string) (req : request) :
  present (body req) = true ->
  recognized (path req) = true ->
  exists log payload,
    chatMiddleware_resume now req (Ok false) = (log, Ok tt)
    /\ payload_of log = Some payload
    /\ (truthy (field (body req) "model") = true ->
        field payload "model" = field (body req) "model")
    /\ (truthy (field (body req) "model") = false ->
        field payload "model" = VStr "unknown").
Proof.
  intros Hbody Hpath.
  destruct (stub_payload now req Hbody Hpath) as (log & payload & H & Hp & Hm & _).
  exists log, payload. split; [exact H |]. split; [exact Hp |].
  unfold js_or in Hm. split; intros T; rewrite T in Hm; exact Hm.
Qed.

Lemma stub_echoes_model_witness :
  present (body chat_llama2) = true
  /\ exists log payload,
       chatMiddleware_resume "t" chat_llama2 (Ok false) = (log, Ok tt)
       /\ payload_of log = Some payload
       /\ field payload "model" = VStr "llama2".
Proof.
  split; [reflexivity |].
  destruct (stub_echoes_model "t" chat_llama2 eq_refl eq_refl)
    as (log & payload & H & Hp & Ht & _).
  exists log, payload. split; [exact H |]. split; [exact Hp |].
  exact (Ht eq_refl).
Defined.

(** X10: for a request with a body, handled while the backend is down, the
    shape of the stub is decided by which texts occur in the path: if
    [/generate] occurs anywhere in it, the payload has the Generate shape (a
    [response] text and no [message]), even when [/chat] occurs too; if only
    [/chat] occurs, it has the Chat shape (a [message] with the text and no
    [response]). *)
Theorem endpoint_kind_by_occurrence (now : string) (req : request) :
  present (body req) = true ->
  (occurs_in "/generate" (path req) ->
   exists log payload,
     chatMiddleware_resume now req (Ok false) = (log, Ok tt)
     /\ payload_of log = Some payload
     /\ field payload "response" = VStr wakingUpText
     /\ field payload "message" = VUndefined)
  /\ (occurs_in "/chat" (path req) -> ~ occurs_in "/generate" (path req) ->
      exists log payload,
        chatMiddleware_resume now req (Ok false) = (log, Ok tt)
        /\ payload_of log = Some payload
        /\ field (field payload "message") "content" = VStr wakingUpText
        /\ field (field payload "message") "role" = VStr "assistant"
        /\ field payload "response" = VUndefined).
Proof.
  intros Hbody. split.
  - intros G. apply includes_spec in G.
    destruct (stub_payload now req Hbody) as (log & payload & H & Hp & _ & Hk).
    { unfold recognized. rewrite G. reflexivity. }
    rewrite G in Hk. exists log, payload. tauto.
  - intros C G. apply includes_spec in C. apply includes_false in G.
    assert (Hrec : recognized (path req) = true)
      by (unfold recognized; rewrite C; apply orb_true_r).
    destruct (isStreaming_spec (body req)) as (v & Hv & _).
    unfold chatMiddleware_resume, streaming_stub, json_stub. simpl.
    rewrite Hv, (get_property_present _ "model" Hbody), G, C. simpl.
    destruct (truthy v); simpl; do 2 eexists; repeat split.
Qed.

Lemma endpoint_kind_by_occurrence_witness :
  present (body (mkReq "/v1/chat/completions" (VObj []))) = true
  /\ occurs_in "/chat" "/v1/chat/completions"
  /\ exists log payload,
       chatMiddleware_resume "t" (mkReq "/v1/chat/completions" (VObj [])) (Ok false)
       = (log, Ok tt)
       /\ payload_of log = Some payload
       /\ field (field payload "message") "role" = VStr "assistant".
Proof.
  assert (C : occurs_in "/chat" "/v1/chat/completions")
    by (exists "/v1", "/completions"; reflexivity).
  assert (G : ~ occurs_in "/generate" "/v1/chat/completions")
    by (apply includes_false; reflexivity).
  split; [reflexivity |]. split; [exact C |].
  destruct (proj2 (endpoint_kind_by_occurrence "t"
                     (mkReq "/v1/chat/completions" (VObj [])) eq_refl) C G)
    as (log & payload & H & Hp & _ & Hr & _).
  exists log, payload. split; [exact H |]. split; [exact Hp | exact Hr].
Defined.

(** ** The wake endpoint and certificates *)

(** X11: the wake call always validates certificates.  [wakeComputer]
    installs no agent, so a wake endpoint reached over https behind a
    self-signed certificate is never accepted: the method fulfils with
    [false] whatever the endpoint would have answered, and a call of
    [ensureOllamaReady] waiting for it throws [wakeFailed] - while the health
    probe of an https backend with such a certificate is judged by its answer
    alone. *)
Theorem wake_endpoint_must_be_trusted (c : OllamaHealthChecker) (b : backend) :
  startsWith (wakeUrl c) "https://" = true ->
  presents b = SelfSigned ->
  verifies_certificate (wakeRequest c) = true
  /\ fst (run (wakeComputer c) (reach b)) = Ok false
  /\ ensure_step c E_wake (WakeSettled (reach b (wakeRequest c)))
     = Some (false, E_threw wakeFailed, [])
  /\ (startsWith (ollamaUrl c) "https://" = true ->
      fst (run (checkOllamaHealth c) (reach b)) = Ok (healthy (answers b))).
Proof.
  intros Hurl Hcert.
  assert (R : reach b (wakeRequest c)
              = NetError "DEPTH_ZERO_SELF_SIGNED_CERT" "self-signed certificate").
  { unfold reach. rewrite Hcert.
    change (url (wakeRequest c)) with (wakeUrl c). rewrite Hurl. reflexivity. }
  split; [reflexivity |].
  split; [rewrite wakeComputer_run, R; reflexivity |].
  split; [rewrite ensure_step_wake, R; reflexivity |].
  intros Hprobe.
  rewrite checkOllamaHealth_run, reach_unverified; [reflexivity |].
  rewrite verifies_certificate_health, Hprobe. reflexivity.
Qed.

Lemma wake_endpoint_must_be_trusted_witness :
  startsWith (wakeUrl demo) "https://" = true
  /\ fst (run (wakeComputer demo) (reach self_signed_up)) = Ok false.
Proof.
  split; [reflexivity |].
  exact (proj1 (proj2 (wake_endpoint_must_be_trusted demo self_signed_up
                         eq_refl eq_refl))).
Defined.

(** ** The routes and hooks of [index.js] *)

(** X12: [GET /ollama-status] never answers 500.  Whatever the network does
    to the probe, the route sends one JSON body with status 200 whose
    [status] is [healthy] exactly when the probe's request ended in status
    200 and [unhealthy] otherwise, and whose [responseTime] is the difference
    of the two clock readings followed by [ms]; its [catch] is never
    entered. *)
Theorem ollama_status_always_200 (c : OllamaHealthChecker)
    (net : axios_request -> network_outcome) (startTime endTime : Z)
    (now : string) :
  exists verdict : string,
    ollama_status c startTime endTime now (fst (run (checkOllamaHealth c) net))
    = ([res_json (VObj [("status", VStr verdict);
                        ("ollamaUrl", VStr (ollamaUrl c));
                        ("timestamp", VStr now);
                        ("responseTime", VStr (show_int (endTime - startTime) ++ "ms"))])],
       Ok tt)
    /\ (verdict = "healthy" <-> net (healthRequest c) = NetStatus 200)
    /\ (verdict = "unhealthy" <-> net (healthRequest c) <> NetStatus 200)
    /\ statusCode
         (fst (ollama_status c startTime endTime now
                 (fst (run (checkOllamaHealth c) net)))) = 200.
Proof.
  rewrite checkOllamaHealth_run. simpl fst.
  pose proof (healthy_200 (net (healthRequest c))) as H.
  destruct (healthy (net (healthRequest c))); eexists;
    (split; [reflexivity |]); (split; [| split; [| reflexivity]]).
  - split; [intros _; apply H; reflexivity | reflexivity].
  - split; [discriminate | intros N; exfalso; apply N, H; reflexivity].
  - split; [discriminate |]. intros E. apply H in E. discriminate.
  - split; [| reflexivity]. intros _ E. apply H in E. discriminate.
Qed.

(** X13: what the proxy's [onError] hook answers.  It completes the response
    exactly once.  The status is 200 exactly when the error code is
    [ECONNRESET], [ECONNREFUSED] or [ETIMEDOUT] and the path contains
    [/generate] or [/chat], and 502 otherwise; a health check is started,
    unawaited, exactly for those three codes.  In the 200 case a path
    containing [/chat] gets the Chat shape - here [/chat] is tested before
    [/generate] - with [done = true] and a text that names the code, and a
    request without a body is answered all the same, with model [unknown]. *)
Theorem onError_replies (c : OllamaHealthChecker) (now : string)
    (err : js_error) (req : request) :
  let log := res_calls (onError c now err req) in
  completes_once log = true
  /\ statusCode log
     = (if is_connection_error err && recognized (path req) then 200 else 502)
  /\ (In fire_checkOllamaHealth (onError c now err req)
      <-> is_connection_error err = true)
  /\ (is_connection_error err = true -> includes (path req) "/chat" = true ->
      exists payload,
        json_sent log = Some payload
        /\ field (field payload "message") "content" = VStr (connectionProblemText err)
        /\ field payload "done" = VBool true
        /\ field payload "model"
           = js_or (optional_property (body req) "model") (VStr "unknown"))
  /\ (is_connection_error err = true -> recognized (path req) = true ->
      present (body req) = false ->
      exists payload,
        json_sent log = Some payload /\ field payload "model" = VStr "unknown").
Proof.
  unfold onError, recognized.
  destruct (is_connection_error err) eqn:E; simpl.
  - destruct (includes (path req) "/chat") eqn:C,
             (includes (path req) "/generate") eqn:G; simpl;
      (split; [reflexivity |]; split; [reflexivity |];
       split; [split; auto |];
       split; [intros _ H; try discriminate H; eexists; repeat split |];
       intros _ H B; try discriminate H;
       destruct (body req); try discriminate B; eexists; split; reflexivity).
  - split; [reflexivity |]. split; [reflexivity |].
    split; [split; [intros [H | [H | []]]; discriminate | discriminate] |].
    split; discriminate.
Qed.

Lemma onError_replies_witness :
  is_connection_error (mkError "socket hang up" (Some "ECONNRESET") None) = true
  /\ statusCode (res_calls (onError demo "t"
                              (mkError "socket hang up" (Some "ECONNRESET") None)
                              (mkReq "/api/chat" VUndefined))) = 200.
Proof.
  split; [reflexivity |].
  exact (proj1 (proj2 (onError_replies demo "t"
                         (mkError "socket hang up" (Some "ECONNRESET") None)
                         (mkReq "/api/chat" VUndefined)))).
Defined.

Lemma getHeader_setHeader (name name' value : string) (h : header_store) :
  getHeader name (setHeader name' value h)
  = if String.eqb (toLowerCase name) (toLowerCase name')
    then Some value else getHeader name h.
Proof. reflexivity. Qed.

(** X14: the headers the proxy sends to the backend.  Whatever the client
    sent and whatever [OLLAMA_URL] is, [onProxyReq] leaves the request with
    [Host: ollama.lukasik.ovh], [User-Agent: AI-Proxy/1.0] and
    [Accept: application/json]; [Connection] is [keep-alive] (with
    [Cache-Control: no-cache]) when the URL contains [/generate] or [/chat]
    and [close] otherwise, in which case [Cache-Control] is left as it was;
    every header with another name, in any spelling, is left as it was. *)
Theorem onProxyReq_headers (url : string) (proxyReq : header_store) :
  let sent := onProxyReq url proxyReq in
  let streams := includes url "/generate" || includes url "/chat" in
  getHeader "Host" sent = Some "ollama.lukasik.ovh"
  /\ getHeader "User-Agent" sent = Some "AI-Proxy/1.0"
  /\ getHeader "Accept" sent = Some "application/json"
  /\ getHeader "Connection" sent = Some (if streams then "keep-alive" else "close")
  /\ getHeader "Cache-Control" sent
     = (if streams then Some "no-cache" else getHeader "Cache-Control" proxyReq)
  /\ (forall name,
        ~ In (toLowerCase name)
             ["host"; "user-agent"; "accept"; "connection"; "cache-control"] ->
        getHeader name sent = getHeader name proxyReq).
Proof.
  unfold onProxyReq.
  destruct (includes url "/generate" || includes url "/chat"); simpl;
    repeat (split; [reflexivity |]);
    intros name Hname; rewrite !getHeader_setHeader;
    repeat match goal with
           | |- context [String.eqb (toLowerCase name) ?k] =>
               destruct (String.eqb_spec (toLowerCase name) k) as [Heq | _];
               [exfalso; apply Hname; rewrite Heq; simpl; tauto |]
           end;
    reflexivity.
Qed.

Lemma onProxyReq_headers_witness :
  ~ In (toLowerCase "Content-Type")
       ["host"; "user-agent"; "accept"; "connection"; "cache-control"]
  /\ getHeader "Content-Type"
       (onProxyReq "/api/chat" (setHeader "content-type" "application/json" (fun _ => None)))
     = Some "application/json".
Proof.
  assert (H : ~ In (toLowerCase "Content-Type")
                   ["host"; "user-agent"; "accept"; "connection"; "cache-control"]).
  { simpl. intros [H | [H | [H | [H | [H | []]]]]]; discriminate H. }
  split; [exact H |].
  rewrite (proj2 (proj2 (proj2 (proj2 (proj2
             (onProxyReq_headers "/api/chat"
                (setHeader "content-type" "application/json" (fun _ => None)))))))
             "Content-Type" H).
  reflexivity.
Defined.

(** X15: the headers the proxy adds to a backend response.  [onProxyRes]
    always sets the three CORS keys; it sets [Cache-Control] exactly when the
    URL contains [/api/tags] or [/api/show]; and every other key of the
    backend's headers keeps its value - in particular the lower-case
    [cache-control] key under which Node stores the backend's own header is
    never replaced. *)
Theorem onProxyRes_headers (url : string) (headers : header_store) :
  let out := onProxyRes url headers in
  out "Access-Control-Allow-Origin" = Some "*"
  /\ out "Access-Control-Allow-Methods" = Some "GET,POST,PUT,DELETE,OPTIONS"
  /\ out "Access-Control-Allow-Headers" = Some "Content-Type,Authorization,X-API-Key"
  /\ out "Cache-Control"
     = (if includes url "/api/tags" || includes url "/api/show"
        then Some "no-cache, no-store, must-revalidate"
        else headers "Cache-Control")
  /\ out "cache-control" = headers "cache-control"
  /\ (forall key,
        ~ In key ["Access-Control-Allow-Origin"; "Access-Control-Allow-Methods";
                  "Access-Control-Allow-Headers"; "Cache-Control"] ->
        out key = headers key).
Proof.
  unfold onProxyRes, assign.
  destruct (includes url "/api/tags" || includes url "/api/show"); simpl;
    repeat (split; [reflexivity |]);
    intros key Hkey;
    repeat match goal with
           | |- context [String.eqb key ?k] =>
               destruct (String.eqb_spec key k) as [Heq | _];
               [exfalso; apply Hkey; rewrite Heq; simpl; tauto |]
           end;
    reflexivity.
Qed.

Lemma onProxyRes_headers_witness :
  ~ In "content-type"
       ["Access-Control-Allow-Origin"; "Access-Control-Allow-Methods";
        "Access-Control-Allow-Headers"; "Cache-Control"]
  /\ onProxyRes "/api/tags" (assign "content-type" "application/json" (fun _ => None))
       "content-type" = Some "application/json".
Proof.
  assert (H : ~ In "content-type"
                   ["Access-Control-Allow-Origin"; "Access-Control-Allow-Methods";
                    "Access-Control-Allow-Headers"; "Cache-Control"]).
  { simpl. intros [H | [H | [H | [H | []]]]]; discriminate H. }
  split; [exact H |].
  rewrite (proj2 (proj2 (proj2 (proj2 (proj2
             (onProxyRes_headers "/api/tags"
                (assign "content-type" "application/json" (fun _ => None)))))))
             "content-type" H).
  reflexivity.
Defined.

Lemma check_required_spec (env : environment) (vars : list string) :
  (check_required env vars = continues
   <-> forall v, In v vars -> exists s, env v = Some s /\ s <> "")
  /\ (forall status v,
        check_required env vars = exits status v ->
        status = 1 /\ env_falsy env v = true
        /\ exists before after,
             vars = (before ++ v :: after)%list
             /\ forall u, In u before -> env_falsy env u = false).
Proof.
  assert (F : forall v, env_falsy env v = false
                        <-> exists s, env v = Some s /\ s <> "").
  { intros v. unfold env_falsy. destruct (env v) as [s |]; simpl.
    - destruct (String.eqb_spec s ""); simpl; split; try discriminate.
      + intros (s' & [= <-] & N). contradiction.
      + intros _. eauto.
      + reflexivity.
    - split; [discriminate | intros (s & [=] & _)]. }
  induction vars as [| u vars [IH1 IH2]]; simpl.
  - split; [split; [intros _ v [] | reflexivity] | discriminate].
  - destruct (env_falsy env u) eqn:E; split.
    + split; [discriminate |]. intros H.
      pose proof (proj2 (F u) (H u (or_introl eq_refl))) as X. congruence.
    + intros status v [= <- <-]. split; [reflexivity |]. split; [exact E |].
      exists [], vars. split; [reflexivity | intros ? []].
    + rewrite IH1. split.
      * intros H v [<- | Hv]; [apply F; exact E | apply H; exact Hv].
      * intros H v Hv. apply H. auto.
    + intros status v Hex. destruct (IH2 status v Hex) as (-> & Hv & before & after & -> & Hb).
      split; [reflexivity |]. split; [exact Hv |].
      exists (u :: before), after. split; [reflexivity |].
      intros u' [<- | Hu]; [exact E | apply Hb; exact Hu].
Qed.

(** X16: start-up lets the server run exactly when [OLLAMA_URL],
    [WAKE_COMPUTER_URL] and [WAKE_API_KEY] are all set to a non-empty text;
    an empty value counts as missing.  Otherwise the process exits with
    status 1 and the variable it names is the first of the three, in that
    order, that is missing or empty. *)
Theorem startup_requires_three_variables (env : environment) :
  (check_required env requiredEnvVars = continues
   <-> (exists s, env "OLLAMA_URL" = Some s /\ s <> "")
       /\ (exists s, env "WAKE_COMPUTER_URL" = Some s /\ s <> "")
       /\ (exists s, env "WAKE_API_KEY" = Some s /\ s <> ""))
  /\ (forall status v,
        check_required env requiredEnvVars = exits status v ->
        status = 1 /\ env_falsy env v = true
        /\ exists before after,
             requiredEnvVars = (before ++ v :: after)%list
             /\ forall u, In u before -> env_falsy env u = false).
Proof.
  destruct (check_required_spec env requiredEnvVars) as [H1 H2].
  split; [| exact H2].
  rewrite H1. unfold requiredEnvVars. simpl. split.
  - intros H. repeat split; apply H; auto.
  - intros (A & B & C) v [<- | [<- | [<- | []]]]; assumption.
Qed.

Lemma startup_requires_three_variables_witness :
  let env := fun v => if String.eqb v "OLLAMA_URL" then Some "http://192.168.1.100:11434"
                      else if String.eqb v "WAKE_COMPUTER_URL" then Some ""
                      else None in
  check_required env requiredEnvVars = exits 1 "WAKE_COMPUTER_URL"
  /\ env_falsy env "WAKE_COMPUTER_URL" = true.
Proof.
  intros env. split; [reflexivity |].
  exact (proj1 (proj2 (proj2 (startup_requires_three_variables env) 1
                         "WAKE_COMPUTER_URL" eq_refl))).
Defined.
